(** * Movement Lab fitness dashboard: a shallow embedding of [app.py]

    The dashboard is a Streamlit script over a pandas [DataFrame].  The
    script is a straight line of pandas calls, so the embedding consists of

    - the table: one record per student with the columns the script reads,
    - the pandas operations the script calls, with the arguments it passes
      (defaults included): [pd.cut], [Series.isin], boolean-mask indexing,
      comparison of a categorical column with a scalar, [Series.mean],
      [Series.max], [int], [DataFrame.copy], column assignment, division of
      columns, [DataFrame.sort_values], [DataFrame.to_csv],
    - the script, as a computation over a store of DataFrame objects that
      emits the elements of the page and may stop with a Python exception.

    Numbers: every numeric column is float64, and a float64 cell is a
    rational, an infinity, or NaN.  Comparisons of floats are exact, so the
    bucketing, the filters and the maxima are modelled exactly.  Sums and
    quotients are taken in the rationals, without rounding, without overflow
    and with one zero: the value of a mean or of a quotient stands for the
    float64 the code computes only up to these, and no statement below
    rests on such a value beyond its being missing, infinite or a number.

    Text: a Python [str] is held as the [string] of its UTF-8 bytes.

    The reader of the exported bytes, which the repository does not have, is
    modelled from the specification, as the reader of Python's [csv] module,
    among the definitions. *)

From Stdlib Require Import QArith ZArith Lia Lqa Bool Arith.
From Stdlib Require Import List String Ascii DecimalString.
From Stdlib Require Import Permutation Sorted.
Import ListNotations.

(** ** Floats *)

(** A float64 cell.  [NaN] is also the missing-value marker of pandas. *)
Inductive float :=
| NaN
| Inf (negative : bool)
| Fin (q : Q).

Definition isna (x : float) : bool :=
match x with NaN => true | _ => false end.

Definition notna (x : float) : bool := negb (isna x).

(** [x <= y] on floats; false as soon as one side is NaN. *)
Definition fle (x y : float) : bool :=
match x, y with
| NaN, _ | _, NaN => false
| Inf true, _ => true
| _, Inf false => true
| Inf false, _ => false
| _, Inf true => false
| Fin a, Fin b => Qle_bool a b
end.

(** [x + y], without the rounding and the overflow of float64. *)
Definition fadd (x y : float) : float :=
match x, y with
| NaN, _ | _, NaN => NaN
| Inf s, Inf s' => if Bool.eqb s s' then Inf s else NaN
| Inf s, Fin _ | Fin _, Inf s => Inf s
| Fin a, Fin b => Fin (a + b)
end.

Definition Qnegative (a : Q) : bool := negb (Qle_bool 0 a).

(** [x / y], as numpy divides float64 arrays: a division by zero gives an
    infinity, or NaN for [0 / 0]; it does not raise.  Without the rounding
    of float64, and with one zero: float64 has [0.0] and [-0.0], and the
    sign of [x / -0.0] is the opposite of the one given here. *)
Definition truediv (x y : float) : float :=
match x, y with
| NaN, _ | _, NaN => NaN
| Inf _, Inf _ => NaN
| Inf s, Fin b => Inf (xorb s (Qnegative b))
| Fin _, Inf _ => Fin 0
| Fin a, Fin b =>
    if Qeq_bool b 0
    then (if Qeq_bool a 0 then NaN else Inf (Qnegative a))
    else Fin (a / b)
end.

(** The larger of two floats, neither of them NaN. *)
Definition fmax (x y : float) : float := if fle x y then y else x.

(** ** Python exceptions and [int] *)

Inductive exn :=
| ValueError
| OverflowError
| KeyError
| NameError.

Inductive outcome (A : Type) :=
| Returned (a : A)
| Raised (e : exn).

Arguments Returned {A} a.
Arguments Raised {A} e.

(** [int(x)] on a float: truncation toward zero; [ValueError] ("cannot
    convert float NaN to integer") on NaN, [OverflowError] on an infinity. *)
Definition py_int (x : float) : outcome Z :=
match x with
| NaN => Raised ValueError
| Inf _ => Raised OverflowError
| Fin q => Returned (Z.quot (Qnum q) (Zpos (Qden q)))
end.

(** ** [pd.cut] as [load_data] calls it *)

(** The categories, in the order of the [labels] argument. *)
Inductive BMICategory := Underweight | Normal | Overweight | Obese.

Definition BMICategory_eqb (a b : BMICategory) : bool :=
match a, b with
| Underweight, Underweight | Normal, Normal
| Overweight, Overweight | Obese, Obese => true
| _, _ => false
end.

Definition label_name (c : BMICategory) : string :=
match c with
| Underweight => "Underweight"
| Normal => "Normal"
| Overweight => "Overweight"
| Obese => "Obese"
end.

(** [bins=[0, 18.5, 25, 30, 100]] *)
Definition bins : list Q := [0; 37 # 2; 25; 30; 100]%Q.

(** [labels=['Underweight', 'Normal', 'Overweight', 'Obese']] *)
Definition labels : list BMICategory := [Underweight; Normal; Overweight; Obese].

(** [bins.searchsorted(x, side="left")]: the number of edges strictly below
    [x]; the edges are increasing, so these are the leading ones. *)
Fixpoint searchsorted_left (edges : list Q) (x : float) : nat :=
match edges with
| [] => O
| e :: rest => if fle x (Fin e) then O else S (searchsorted_left rest x)
end.

(** [pd.cut(x, bins, labels)] on one cell, with the defaults [right=True]
    and [include_lowest=False]: NaN stays NaN, the positions [0] (at or
    below the first edge) and [len(bins)] (above the last edge) are masked
    to NaN, any other position [i] takes [labels[i-1]]. *)
Definition cut (x : float) : option BMICategory :=
match x with
| NaN => None
| _ =>
    let i := searchsorted_left bins x in
    if (Nat.eqb i 0 || Nat.eqb i (List.length bins))%bool then None
    else nth_error labels (i - 1)
end.

(** ** The table *)

(** Modelled from the spec: the data file [ML_school_testing_clean.csv] is
    not part of the repository.  Its columns are the eleven of the input
    schema (identity, height, weight, BMI, grip per kg, upper-body strength,
    squat repetitions, flexibility, best throw, mean throw, throw trials),
    in that order, under the names by which the script reads them. *)
Record Student := mkStudent {
  Name : string;
  Height_cm : float;
  Weight_kg : float;
  BMI : float;
  Rel_Grip_perKg : float;
  UB_Strength_kg : float;
  LB_Squat_1min_reps : float;
  Flexibility_cm : float;
  MB_OH_Best_m : float;
  MB_OH_Mean_m : float;
  MB_OH_Trials : float
}.

(** A row of the loaded table: the record and the derived column. *)
Record Row := mkRow {
  student : Student;
  BMI_Category : option BMICategory
}.

(** A row once the strength tab has added its column. *)
Record StrengthRow := mkStrengthRow {
  row : Row;
  Rel_Strength_perKg : float
}.

(** A [DataFrame] over the loaded columns is the list of its rows, in index
    order. *)
Definition DataFrame := list Row.

Definition row_name (r : Row) : string := Name (student r).

(** A cell as [to_csv] and [st.dataframe] see it. *)
Inductive cell :=
| Text (s : string)
| Number (x : float)
| Label (c : option BMICategory).

(** The columns of a frame, in order, and the cells of a row under them. *)
Class Tabular (R : Type) := {
  columns : list string;
  cells : R -> list cell
}.

Definition Student_columns : list string :=
["Name"; "Height_cm"; "Weight_kg"; "BMI"; "Rel_Grip_perKg"; "UB_Strength_kg";
 "LB_Squat_1min_reps"; "Flexibility_cm"; "MB_OH_Best_m"; "MB_OH_Mean_m";
 "MB_OH_Trials"]%string.

Definition Student_cells (s : Student) : list cell :=
[Text (Name s); Number (Height_cm s); Number (Weight_kg s); Number (BMI s);
 Number (Rel_Grip_perKg s); Number (UB_Strength_kg s);
 Number (LB_Squat_1min_reps s); Number (Flexibility_cm s);
 Number (MB_OH_Best_m s); Number (MB_OH_Mean_m s); Number (MB_OH_Trials s)].

(** [df['BMI_Category'] = ...] appends the column. *)
#[export] Instance Row_Tabular : Tabular Row := {|
  columns := Student_columns ++ ["BMI_Category"%string];
  cells r := Student_cells (student r) ++ [Label (BMI_Category r)]
|}.

(** [filtered_df['Rel_Strength_perKg'] = ...] appends the column. *)
#[export] Instance StrengthRow_Tabular : Tabular StrengthRow := {|
  columns := columns (R := Row) ++ ["Rel_Strength_perKg"%string];
  cells r := cells (row r) ++ [Number (Rel_Strength_perKg r)]
|}.

(** ** The pandas operations of the script *)

(** [df[c] = values]: the new column is laid next to the rows, position by
    position. *)
Definition assign {A B C} (mk : A -> B -> C) (df : list A) (values : list B)
  : list C :=
map (fun p => mk (fst p) (snd p)) (combine df values).

(** [df[mask]]: the rows at which the mask holds, in the order of [df]. *)
Fixpoint bool_index {A} (df : list A) (mask : list bool) : list A :=
match df, mask with
| r :: df', m :: mask' =>
    if m then r :: bool_index df' mask' else bool_index df' mask'
| _, _ => []
end.

(** [categorical == other] for a string [other]: when [other] is one of the
    categories the codes are compared, a missing cell (code -1) comparing
    unequal; when it is not, every cell compares unequal. *)
Definition categorical_eq (series : list (option BMICategory)) (other : string)
  : list bool :=
match find (fun l => String.eqb (label_name l) other) labels with
| Some code =>
    map (fun c => match c with
                  | Some c' => BMICategory_eqb c' code
                  | None => false
                  end) series
| None => map (fun _ => false) series
end.

(** Methods of a [Series]. *)
Module Series.

(** [series.isin(values)] *)
Definition isin (series : list string) (values : list string) : list bool :=
map (fun x => existsb (String.eqb x) values) series.

(** [series1 / series2], cell by cell. *)
Definition truediv_series (a b : list float) : list float :=
map (fun p => truediv (fst p) (snd p)) (combine a b).

(** The number of cells that are not NaN. *)
Definition count (series : list float) : nat :=
List.length (filter notna series).

(** The sum of a series whose NaN cells have been replaced by [fill]. *)
Definition fillna (fill : float) (x : float) : float :=
if isna x then fill else x.

Definition fsum (values : list float) : float :=
fold_left fadd values (Fin 0).

(** [series.mean()] with the default [skipna=True]: the NaN cells are
    replaced by 0 and summed with the rest, the sum is divided by the number
    of cells that are not NaN; NaN when there is no such cell.  The sum is
    taken without rounding, in the order of the series; numpy rounds every
    partial sum and sums long arrays in blocks. *)
Definition mean (series : list float) : float :=
let n := count series in
let the_sum := fsum (map (fillna (Fin 0)) series) in
if Nat.ltb 0 n then truediv the_sum (Fin (inject_Z (Z.of_nat n))) else NaN.

(** [series.max()] with the default [skipna=True]: NaN on an empty series;
    otherwise the NaN cells are replaced by minus infinity, the largest cell
    is taken, and it is nulled out when every cell was NaN. *)
Definition max (series : list float) : float :=
match map (fillna (Inf true)) series with
| [] => NaN
| v :: values =>
    let result := fold_left fmax values v in
    if Nat.ltb (count series) 1 then NaN else result
end.

End Series.

(** [df.sort_values(key)], ascending: insertion from the right, which keeps
    rows with equal keys in their order.  (pandas sorts with quicksort by
    default, which promises no order among equal keys; the two agree when
    the keys are distinct.)  Strings are compared as Python compares them,
    code point by code point, which on their UTF-8 bytes is byte by byte. *)
Fixpoint insert_by {A} (key : A -> string) (r : A) (sorted : list A) : list A :=
match sorted with
| [] => [r]
| r' :: rest =>
    if String.leb (key r) (key r') then r :: sorted
    else r' :: insert_by key r rest
end.

Definition sort_values {A} (key : A -> string) (df : list A) : list A :=
fold_right (insert_by key) [] df.

(** ** [DataFrame.to_csv] *)

Section Exporter.

(** [repr] of a finite float, and [os.linesep]: the one is the shortest
    decimal that reads back as the same float64, the other depends on the
    host; both are taken as given. *)
Variable float_repr : Q -> string.
Variable linesep : string.

Definition delimiter : ascii := ","%char.
Definition quotechar : ascii := "034"%char.

(** The text of a cell: [na_rep=''] for a missing cell, the label of a
    category, [repr] of a float. *)
Definition cell_text (c : cell) : string :=
match c with
| Text s => s
| Number NaN => ""
| Number (Inf false) => "inf"
| Number (Inf true) => "-inf"
| Number (Fin q) => float_repr q
| Label None => ""
| Label (Some l) => label_name l
end.

Fixpoint contains (c : ascii) (s : string) : bool :=
match s with
| EmptyString => false
| String c' s' => Ascii.eqb c c' || contains c s'
end.

(** [csv.QUOTE_MINIMAL]: a field is quoted when it holds the delimiter, the
    quote character or a character of the line terminator. *)
Definition special (c : ascii) : bool :=
Ascii.eqb c delimiter || Ascii.eqb c quotechar || contains c linesep.

Fixpoint needs_quoting (field : string) : bool :=
match field with
| EmptyString => false
| String c rest => special c || needs_quoting rest
end.

(** [doublequote=True]: a quote character inside a field is written twice. *)
Fixpoint double_quotes (field : string) : string :=
match field with
| EmptyString => EmptyString
| String c rest =>
    if Ascii.eqb c quotechar then String c (String c (double_quotes rest))
    else String c (double_quotes rest)
end.

Definition write_field (field : string) : string :=
if needs_quoting field
then String quotechar (double_quotes field ++ String quotechar EmptyString)
else field.

(** [writer.writerow(fields)]; a row that is one empty field is written as
    a pair of quotes. *)
Definition writerow (fields : list string) : string :=
match fields with
| [EmptyString] => String quotechar (String quotechar linesep)
| _ => String.concat (String delimiter EmptyString) (map write_field fields) ++ linesep
end.

(** The rows handed to the writer by [to_csv(index=False)]: the header,
    then one row per record. *)
Definition csv_rows {R} `{Tabular R} (df : list R) : list (list string) :=
columns :: map (fun r => map cell_text (cells r)) df.

(** The rows are written one after the other. *)
Definition to_csv {R} `{Tabular R} (df : list R) : string :=
fold_right (fun fields out => writerow fields ++ out)%string EmptyString
  (csv_rows df).

(** [str.encode('utf-8')].  A [string] of the model holds the UTF-8 bytes of
    the Python text, so that encoding hands over those bytes. *)
Definition encode_utf8 (s : string) : list Byte.byte := list_byte_of_string s.

Definition convert_df_to_csv {R} `{Tabular R} (df : list R) : list Byte.byte :=
encode_utf8 (to_csv df).

End Exporter.

(** ** Dataset Loader and Filter Engine, on values *)

(** [load_data], after [pd.read_csv] has produced the records. *)
Definition load_data (csv : list Student) : DataFrame :=
let df := csv in
assign mkRow df (map cut (map BMI df)).

(** [student_names = df['Name'].tolist()], the default of the multiselect. *)
Definition student_names (df : DataFrame) : list string := map row_name df.

(** The lines under "Apply Filters". *)
Definition apply_filters (df : DataFrame) (selected_students : list string)
  (selected_bmi : string) : DataFrame :=
let filtered_df := bool_index df (Series.isin (map row_name df) selected_students) in
if negb (String.eqb selected_bmi "All")
then bool_index filtered_df
       (categorical_eq (map BMI_Category filtered_df) selected_bmi)
else filtered_df.

(** The filter as the specification words it: the identity is in the set,
    and the category argument is "All" or is the row's derived category. *)
Definition keeps (S : list string) (C : string) (r : Row) : bool :=
existsb (String.eqb (row_name r)) S &&
(String.eqb C "All" ||
 match BMI_Category r with
 | Some c => String.eqb (label_name c) C
 | None => false
 end).

Definition filter_spec (table : DataFrame) (S : list string) (C : string)
  : DataFrame :=
filter (keeps S C) table.

(** ** DataFrame objects *)

(** The script holds DataFrames of two shapes: over the loaded columns, and
    over the loaded columns with [Rel_Strength_perKg]. *)
Inductive object :=
| Table (df : list Row)
| StrengthTable (df : list StrengthRow).

Definition object_rows (o : object) : list Row :=
match o with
| Table df => df
| StrengthTable df => map row df
end.

Definition object_columns (o : object) : list string :=
match o with
| Table _ => columns (R := Row)
| StrengthTable _ => columns (R := StrengthRow)
end.

Definition object_cells (o : object) : list (list cell) :=
match o with
| Table df => map cells df
| StrengthTable df => map cells df
end.

(** [len(df)] *)
Definition len (o : object) : nat := List.length (object_rows o).

(** [df[c]] for a column [c] of the data file. *)
Definition getitem {A} (c : Student -> A) (o : object) : list A :=
map (fun r => c (student r)) (object_rows o).

(** [df['BMI_Category']] *)
Definition getitem_category (o : object) : list (option BMICategory) :=
map BMI_Category (object_rows o).

(** [df['Rel_Strength_perKg']], a [KeyError] where the frame has no such
    column. *)
Definition getitem_strength (o : object) : outcome (list float) :=
match o with
| Table _ => Raised KeyError
| StrengthTable df => Returned (map Rel_Strength_perKg df)
end.

(** [df[mask]] *)
Definition getitem_mask (o : object) (mask : list bool) : object :=
match o with
| Table df => Table (bool_index df mask)
| StrengthTable df => StrengthTable (bool_index df mask)
end.

(** [df['Rel_Strength_perKg'] = values]: appended to a frame that has no
    such column, replaced in one that has. *)
Definition setitem_strength (o : object) (values : list float) : object :=
match o with
| Table df => StrengthTable (assign mkStrengthRow df values)
| StrengthTable df =>
    StrengthTable (assign (fun r v => mkStrengthRow (row r) v) df values)
end.

(** [df.sort_values('Name')] *)
Definition sort_values_Name (o : object) : object :=
match o with
| Table df => Table (sort_values row_name df)
| StrengthTable df => StrengthTable (sort_values (fun r => row_name (row r)) df)
end.

(** ** The page *)

(** The value of an [st.metric]: an integer, or a float under a format
    [f"{x:.<digits>f}"] (which prints NaN as [nan]). *)
Inductive metric_value :=
| IntValue (n : Z)
| Formatted (x : float) (digits : nat).

(** A chart, as the data it is built from; colours, axis titles and text
    templates are constants of the script and are left out. *)
Inductive figure :=
| histogram (x : list float) (nbins : nat)
| bar (title : string) (x : list string) (y : list float)
| scatter_pair (best_x mean_x : list float) (y : list string) (height : nat)
| pie (names : list float).

(** The elements the script puts on the page; headers and captions are
    constants and are left out, so are the number formats of the tables. *)
Inductive element :=
| metric (label : string) (value : metric_value)
| plotly_chart (fig : figure)
| dataframe (header : list string) (body : list (list cell))
| download_button (data : list Byte.byte) (file_name mime : string).

(** The figures, under the names the script gives them. *)
Definition fig_bmi (filtered_df : object) : figure :=
histogram (getitem BMI filtered_df) 10.

Definition fig_flex (filtered_df : object) : figure :=
bar "Flexibility (cm)" (getitem Name filtered_df)
  (getitem Flexibility_cm filtered_df).

Definition fig_abs (filtered_df : object) : figure :=
bar "Absolute Upper Body Strength (kg)" (getitem Name filtered_df)
  (getitem UB_Strength_kg filtered_df).

Definition fig_rel (filtered_df : object) : outcome figure :=
match getitem_strength filtered_df with
| Returned rel =>
    Returned (bar "Relative Strength (UB Strength / BMI)"
                (getitem Name filtered_df) rel)
| Raised e => Raised e
end.

(** [height=max(400, len(filtered_df) * 30)] *)
Definition fig_mb (filtered_df : object) : figure :=
scatter_pair (getitem MB_OH_Best_m filtered_df)
  (getitem MB_OH_Mean_m filtered_df) (getitem Name filtered_df)
  (Nat.max 400 (len filtered_df * 30)).

Definition fig_trials (filtered_df : object) : figure :=
pie (getitem MB_OH_Trials filtered_df).

Definition display_cols : list string :=
["Name"; "Flexibility_cm"; "UB_Strength_kg"; "Weight_kg"; "Rel_Strength_perKg"]%string.

(** The cells under [display_cols], as the frame holds them: [round(3)] and
    the formats of the Styler change how a number is shown, not which rows
    and columns are, and are left out. *)
Definition display_cells (r : StrengthRow) : list cell :=
[Text (row_name (row r)); Number (Flexibility_cm (student (row r)));
 Number (UB_Strength_kg (student (row r))); Number (Weight_kg (student (row r)));
 Number (Rel_Strength_perKg r)].

(** [filtered_df[display_cols]]; the frame must hold the strength column. *)
Definition getitem_display (o : object) : outcome (list (list cell)) :=
match o with
| Table _ => Raised KeyError
| StrengthTable df => Returned (map display_cells df)
end.

(** [filtered_df['UB_Strength_kg'] / filtered_df['Weight_kg']] *)
Definition relative_strength (filtered_df : object) : list float :=
Series.truediv_series (getitem UB_Strength_kg filtered_df)
  (getitem Weight_kg filtered_df).

(** ** The script as a computation *)

Definition loc := nat.

(** The objects allocated so far, and the page so far. *)
Record state := mkState {
  heap : list object;
  page : list element
}.

Definition M (A : Type) : Type := state -> outcome A * state.

Definition ret {A} (a : A) : M A := fun s => (Returned a, s).

Definition bind {A B} (m : M A) (k : A -> M B) : M B :=
fun s =>
  match m s with
  | (Returned a, s') => k a s'
  | (Raised e, s') => (Raised e, s')
  end.

Declare Scope script_scope.
Delimit Scope script_scope with script.

Notation "x <- m ;; k" := (bind m (fun x => k))
  (at level 61, m at next level, right associativity) : script_scope.
Notation "m ;; k" := (bind m (fun _ => k))
  (at level 61, right associativity) : script_scope.

(** An uncaught exception stops the run; the page keeps what was emitted. *)
Definition lift {A} (r : outcome A) : M A := fun s => (r, s).

(** A new object, at the next free location. *)
Definition new (o : object) : M loc :=
fun s => (Returned (List.length (heap s)), mkState (heap s ++ [o]) (page s)).

Definition deref (l : loc) : M object :=
fun s =>
  match nth_error (heap s) l with
  | Some o => (Returned o, s)
  | None => (Raised NameError, s)
  end.

Fixpoint update (l : loc) (o : object) (h : list object) : list object :=
match h, l with
| [], _ => []
| _ :: h', O => o :: h'
| o' :: h', S l' => o' :: update l' o h'
end.

(** The object at [l] is changed in place. *)
Definition mutate (l : loc) (f : object -> object) : M unit :=
fun s =>
  match nth_error (heap s) l with
  | Some o => (Returned tt, mkState (update l (f o) (heap s)) (page s))
  | None => (Raised NameError, s)
  end.

Definition emit (e : element) : M unit :=
fun s => (Returned tt, mkState (heap s) (page s ++ [e])).

Section Script.

Variable float_repr : Q -> string.
Variable linesep : string.

Local Open Scope script_scope.

(** [df = load_data()] *)
Definition load (csv : list Student) : M loc := new (Table (load_data csv)).

(** The lines under "Apply Filters": each indexing makes a new frame. *)
Definition filter_engine (df : loc) (selected_students : list string)
  (selected_bmi : string) : M loc :=
  table <- deref df ;;
  filtered_df <- new (getitem_mask table
                        (Series.isin (getitem Name table) selected_students)) ;;
  if negb (String.eqb selected_bmi "All")
  then
    view <- deref filtered_df ;;
    new (getitem_mask view (categorical_eq (getitem_category view) selected_bmi))
  else ret filtered_df.

(** Tab 1, "Overview". *)
Definition tab1 (filtered_df : loc) : M unit :=
  view <- deref filtered_df ;;
  emit (metric "Total Students" (IntValue (Z.of_nat (len view)))) ;;
  let avg_bmi := Series.mean (getitem BMI view) in
  emit (metric "Avg BMI" (Formatted avg_bmi 1)) ;;
  let avg_grip := Series.mean (getitem Rel_Grip_perKg view) in
  emit (metric "Avg Relative Grip" (Formatted avg_grip 2)) ;;
  let max_squat := Series.max (getitem LB_Squat_1min_reps view) in
  reps <- lift (py_int max_squat) ;;
  emit (metric "Max Squat (reps)" (IntValue reps)) ;;
  emit (plotly_chart (fig_bmi view)).

(** Tab 2, "Strength & Flexibility".  The name [filtered_df] is bound anew
    twice: to a copy, which then gets the strength column, and to the copy
    sorted.  The tab hands its last binding on to the rest of the script. *)
Definition tab2 (filtered_df : loc) : M loc :=
  view <- deref filtered_df ;;
  filtered_df <- new view ;;
  frame <- deref filtered_df ;;
  mutate filtered_df (fun o => setitem_strength o (relative_strength frame)) ;;
  frame <- deref filtered_df ;;
  filtered_df <- new (sort_values_Name frame) ;;
  frame <- deref filtered_df ;;
  emit (plotly_chart (fig_flex frame)) ;;
  emit (plotly_chart (fig_abs frame)) ;;
  fig <- lift (fig_rel frame) ;;
  emit (plotly_chart fig) ;;
  shown <- lift (getitem_display frame) ;;
  emit (dataframe display_cols shown) ;;
  ret filtered_df.

(** Tab 3, the overhead throw. *)
Definition tab3 (filtered_df : loc) : M unit :=
  frame <- deref filtered_df ;;
  emit (plotly_chart (fig_mb frame)) ;;
  emit (plotly_chart (fig_trials frame)).

(** [convert_df_to_csv(df)] on an object. *)
Definition convert (o : object) : list Byte.byte :=
match o with
| Table df => convert_df_to_csv float_repr linesep df
| StrengthTable df => convert_df_to_csv float_repr linesep df
end.

(** Tab 4, "Data Explorer". *)
Definition tab4 (filtered_df : loc) : M unit :=
  frame <- deref filtered_df ;;
  emit (dataframe (object_columns frame) (object_cells frame)) ;;
  let csv := convert frame in
  emit (download_button csv "movement_lab_filtered_data.csv" "text/csv").

(** The tabs, from the Filter Engine's frame on; the result is the frame
    [filtered_df] names when the script ends. *)
Definition tabs (filtered_df : loc) : M loc :=
  tab1 filtered_df ;;
  filtered_df <- tab2 filtered_df ;;
  tab3 filtered_df ;;
  tab4 filtered_df ;;
  ret filtered_df.

(** One run of the script, for the choices made in the sidebar. *)
Definition script (csv : list Student) (selected_students : list string)
  (selected_bmi : string) : M loc :=
  df <- load csv ;;
  filtered_df <- filter_engine df selected_students selected_bmi ;;
  tabs filtered_df.

Definition run {A} (m : M A) : outcome A * state := m (mkState [] []).

End Script.

(** ** The aggregates as the specification words them *)

(** The cells of a series that are present. *)
Definition present (series : list float) : list float := filter notna series.

(** [m] is the maximum of a list of values: one of them, and none above. *)
Definition is_maximum (values : list float) (m : float) : Prop :=
In m values /\ forall x, In x values -> fle x m = true.

(** ** A sample table *)

Definition sample_csv : list Student :=
[ mkStudent "Zoe" (Fin 165) (Fin 60) (Fin 22) (Fin (1 # 2)) (Fin 30)
    (Fin 5) (Fin 12) (Fin 6) (Fin (11 # 2)) (Fin 3);
  mkStudent "Adam" (Fin 150) (Fin 38) (Fin 17) (Fin (2 # 5)) (Fin 19)
    NaN (Fin 9) (Fin 5) (Fin (9 # 2)) (Fin 2);
  mkStudent "Mia" (Fin 158) (Fin 70) (Fin 28) (Fin (3 # 10)) (Fin 28)
    (Fin 8) NaN (Fin 4) (Fin 4) (Fin 3) ]%Q.

(** A stand-in for [repr] on the sample: the decimal expansion of a
    rational, cut after 17 places; it is [repr] on the short decimals of the
    sample.  No property below depends on the digits. *)
Fixpoint fraction_digits (places : nat) (r d : Z) : string :=
match places with
| O => EmptyString
| S places' =>
    if (r =? 0)%Z then EmptyString
    else (NilZero.string_of_int (Z.to_int (r * 10 / d))
          ++ fraction_digits places' ((r * 10) mod d) d)%string
end.

Definition sample_repr (q : Q) : string :=
let n := Z.abs (Qnum q) in
let d := Zpos (Qden q) in
((if (Qnum q <? 0)%Z then "-" else "")
 ++ NilZero.string_of_int (Z.to_int (n / d)) ++ "."
 ++ (if (n mod d =? 0)%Z then "0" else fraction_digits 17 (n mod d) d))%string.

(** [os.linesep] on a POSIX host. *)
Definition posix_linesep : string := String "010"%char EmptyString.

(** ** What the tabs are expected to leave behind *)

(** The frame of the strength tab: the view with the strength column. *)
Definition with_strength (view : DataFrame) : list StrengthRow :=
assign mkStrengthRow view (relative_strength (Table view)).

(** ... and sorted by name: the frame the later tabs read. *)
Definition sorted_frame (view : DataFrame) : list StrengthRow :=
sort_values (fun r => row_name (row r)) (with_strength view).

(** The elements of the overview, before and after the conversion of the
    largest squat count to an integer. *)
Definition overview_head (view : object) : list element :=
[metric "Total Students" (IntValue (Z.of_nat (len view)));
 metric "Avg BMI" (Formatted (Series.mean (getitem BMI view)) 1);
 metric "Avg Relative Grip" (Formatted (Series.mean (getitem Rel_Grip_perKg view)) 2)].

Definition overview_tail (view : object) (reps : Z) : list element :=
[metric "Max Squat (reps)" (IntValue reps); plotly_chart (fig_bmi view)].

(** The elements of the strength tab, of the throw tab and of the data
    explorer, each as a function of the frame the tab reads. *)
Definition strength_page (frame : list StrengthRow) : list element :=
[plotly_chart (fig_flex (StrengthTable frame));
 plotly_chart (fig_abs (StrengthTable frame));
 plotly_chart (bar "Relative Strength (UB Strength / BMI)"
                 (getitem Name (StrengthTable frame))
                 (map Rel_Strength_perKg frame));
 dataframe display_cols (map display_cells frame)].

Definition throw_page (frame : object) : list element :=
[plotly_chart (fig_mb frame); plotly_chart (fig_trials frame)].

(** The state the Filter Engine leaves, from an empty store: the loaded
    table, the frame of the selected students, and, under a category, the
    frame of those among them in the category. *)
Definition filtered_state (csv : list Student) (S : list string) (C : string) : state :=
let table := load_data csv in
let by_name := bool_index table (Series.isin (map row_name table) S) in
if negb (String.eqb C "All")
then mkState [Table table; Table by_name; Table (apply_filters table S C)] []
else mkState [Table table; Table (apply_filters table S C)] [].

(** The location of the Filter Engine's frame in that state. *)
Definition view_loc (C : string) : loc :=
if negb (String.eqb C "All") then 2%nat else 1%nat.

Section Explorer.

Variable float_repr : Q -> string.
Variable linesep : string.

Definition explorer_page (frame : object) : list element :=
[dataframe (object_columns frame) (object_cells frame);
 download_button (convert float_repr linesep frame)
   "movement_lab_filtered_data.csv" "text/csv"].

End Explorer.

(** A frame is in the order of its names. *)
Definition name_le (a b : StrengthRow) : Prop :=
String.leb (row_name (row a)) (row_name (row b)) = true.

Definition sample_names : list string := ["Zoe"; "Adam"; "Mia"]%string.

(** ** The inverse of the writer *)

Fixpoint starts_with (p s : string) : bool :=
match p, s with
| EmptyString, _ => true
| String a p', String b s' => Ascii.eqb a b && starts_with p' s'
| String _ _, EmptyString => false
end.

Section Reader.

Variable linesep : string.

(** Where the reader of the written rows stands. *)
Inductive mode :=
| AtField
| Plain
| Quoted
| QuoteSeen
| EndOfLine (n : nat).

(** The mode when [n] characters of a line terminator are still to pass. *)
Definition mode_after (n : nat) : mode :=
match n with
| O => AtField
| S _ => EndOfLine n
end.

Definition line_end : mode := mode_after (String.length linesep - 1).

(** The inverse of the writer: [tokenize] reads back the rows that
    [writerow] has written with the line terminator [linesep], and by it the
    exporter is shown to lose nothing of what it writes.  It is no reader of
    delimited text at large: it knows the terminator of the writer and ends
    a row nowhere else.  Fields are separated by the delimiter, a field may
    stand in quotes, inside which a doubled quote is one quote and the
    delimiter and the line terminator are ordinary characters.  [field] is
    the text of the current field, [fields] the fields of the current row
    and [rows] the rows read so far, both last first. *)
Fixpoint tokenize (m : mode) (field : string) (fields : list string)
    (rows : list (list string)) (input : string) {struct input}
  : option (list (list string)) :=
match input with
| EmptyString =>
    match m, fields with
    | AtField, [] => Some (rev rows)
    | _, _ => None
    end
| String c rest =>
    match m with
    | EndOfLine n => tokenize (mode_after (pred n)) EmptyString [] rows rest
    | AtField =>
        if Ascii.eqb c quotechar then tokenize Quoted EmptyString fields rows rest
        else if Ascii.eqb c delimiter
        then tokenize AtField EmptyString (EmptyString :: fields) rows rest
        else if starts_with linesep (String c rest)
        then tokenize line_end EmptyString []
               (rev (match fields with
                     | [] => []
                     | _ => EmptyString :: fields
                     end) :: rows) rest
        else tokenize Plain (String c EmptyString) fields rows rest
    | Plain =>
        if Ascii.eqb c delimiter
        then tokenize AtField EmptyString (field :: fields) rows rest
        else if starts_with linesep (String c rest)
        then tokenize line_end EmptyString [] (rev (field :: fields) :: rows) rest
        else tokenize Plain (field ++ String c EmptyString) fields rows rest
    | Quoted =>
        if Ascii.eqb c quotechar then tokenize QuoteSeen field fields rows rest
        else tokenize Quoted (field ++ String c EmptyString) fields rows rest
    | QuoteSeen =>
        if Ascii.eqb c quotechar
        then tokenize Quoted (field ++ String c EmptyString) fields rows rest
        else if Ascii.eqb c delimiter
        then tokenize AtField EmptyString (field :: fields) rows rest
        else if starts_with linesep (String c rest)
        then tokenize line_end EmptyString [] (rev (field :: fields) :: rows) rest
        else None
    end
end.

(** The line terminator is not empty and holds neither the delimiter nor
    the quote character. *)
Definition good_linesep : bool :=
negb (String.eqb linesep "") &&
negb (contains delimiter linesep) && negb (contains quotechar linesep).

End Reader.

(** ** The reader of the export *)

(** [bytes.decode('utf-8')], the inverse of [encode_utf8]. *)
Definition decode_utf8 (b : list Byte.byte) : string := string_of_list_byte b.

Definition carriage_return : ascii := "013"%char.
Definition line_feed : ascii := "010"%char.

(** The characters at which a line of text ends. *)
Definition newline (c : ascii) : bool :=
Ascii.eqb c carriage_return || Ascii.eqb c line_feed.

(** [os.linesep]: a line feed on a POSIX host, a carriage return and a line
    feed on Windows. *)
Definition os_linesep (linesep : string) : bool :=
String.eqb linesep (String line_feed EmptyString) ||
String.eqb linesep (String carriage_return (String line_feed EmptyString)).

(** Where the reader stands: at the start of a field, in a field without
    quotes, in a field in quotes, behind a quote met in such a field, or
    behind a carriage return that ended a record. *)
Inductive reader_state :=
| StartField
| InField
| InQuotedField
| QuoteInQuotedField
| EatLineFeed.

(** The reader at some point of the text: its state, the text of the field
    it is in, the fields of the record it is in and the records it has
    read, both last first. *)
Record reader := mkReader {
  at_state : reader_state;
  the_field : string;
  the_fields : list string;
  the_records : list (list string)
}.

(** A record ends at [c], a carriage return or a line feed. *)
Definition end_record (c : ascii) (fields : list string)
    (records : list (list string)) : reader :=
mkReader (if Ascii.eqb c carriage_return then EatLineFeed else StartField)
  EmptyString [] (rev fields :: records).

(** The character [c] where a field starts.  A line that ends where it
    starts is a record of no field. *)
Definition start_field (c : ascii) (fields : list string)
    (records : list (list string)) : reader :=
if newline c
then end_record c (match fields with
                   | [] => []
                   | _ => EmptyString :: fields
                   end) records
else if Ascii.eqb c quotechar then mkReader InQuotedField EmptyString fields records
else if Ascii.eqb c delimiter
then mkReader StartField EmptyString (EmptyString :: fields) records
else mkReader InField (String c EmptyString) fields records.

(** Modelled from the spec: [parseTransferable], the reader of the
    exporter's bytes, is not part of the repository.  The reader of
    "standard delimited tabular text" is modelled as the reader of Python's
    [csv] module, the counterpart of the writer that [to_csv] calls, in its
    default dialect (delimiter [,], quote character, doubled quotes, not
    strict) over a text opened with [newline='']: outside quotes a record
    ends at a carriage return, at a line feed, or at a carriage return
    followed by a line feed, whatever the writer's line terminator was;
    inside quotes a doubled quote is one quote and every other character,
    the delimiter and the line breaks among them, is an ordinary one.
    [parse_char] is one step of the reader, at the character [c]. *)
Definition parse_char (r : reader) (c : ascii) : reader :=
let field := the_field r in
let fields := the_fields r in
let records := the_records r in
match at_state r with
| EatLineFeed =>
    if Ascii.eqb c line_feed then mkReader StartField EmptyString [] records
    else start_field c [] records
| StartField => start_field c fields records
| InField =>
    if newline c then end_record c (field :: fields) records
    else if Ascii.eqb c delimiter
    then mkReader StartField EmptyString (field :: fields) records
    else mkReader InField (field ++ String c EmptyString) fields records
| InQuotedField =>
    if Ascii.eqb c quotechar then mkReader QuoteInQuotedField field fields records
    else mkReader InQuotedField (field ++ String c EmptyString) fields records
| QuoteInQuotedField =>
    if Ascii.eqb c quotechar
    then mkReader InQuotedField (field ++ String c EmptyString) fields records
    else if Ascii.eqb c delimiter
    then mkReader StartField EmptyString (field :: fields) records
    else if newline c then end_record c (field :: fields) records
    else mkReader InField (field ++ String c EmptyString) fields records
end.

(** Where the text ends, a record that has begun is a record. *)
Definition end_of_input (r : reader) : list (list string) :=
match at_state r, the_fields r with
| StartField, [] => rev (the_records r)
| EatLineFeed, _ => rev (the_records r)
| StartField, fields => rev (rev (EmptyString :: fields) :: the_records r)
| _, fields => rev (rev (the_field r :: fields) :: the_records r)
end.

Fixpoint parse (r : reader) (input : string) : list (list string) :=
match input with
| EmptyString => end_of_input r
| String c rest => parse (parse_char r c) rest
end.

(** Modelled from the spec: [csv.reader(text)], the records of a text. *)
Definition csv_reader (text : string) : list (list string) :=
parse (mkReader StartField EmptyString [] []) text.

Fixpoint same_fields (a b : list string) : bool :=
match a, b with
| [], [] => true
| x :: a', y :: b' => String.eqb x y && same_fields a' b'
| _, _ => false
end.

(** Every field of a record is read by [read]. *)
Fixpoint read_all {A B} (read : A -> option B) (texts : list A) : option (list B) :=
match texts with
| [] => Some []
| text :: texts' =>
    match read text, read_all read texts' with
    | Some x, Some xs => Some (x :: xs)
    | _, _ => None
    end
end.

Section Parser.

(** The reader of a number, the counterpart of [repr], is taken as given. *)
Variable float_read : string -> option Q.

(** Modelled from the spec: the reading of a field under the "fixed, known
    column schema".  A number is missing when its field is empty. *)
Definition read_number (text : string) : option float :=
if String.eqb text "" then Some NaN
else if String.eqb text "inf" then Some (Inf false)
else if String.eqb text "-inf" then Some (Inf true)
else option_map Fin (float_read text).

(** A category is one of the four labels, or absent when its field is
    empty. *)
Definition read_category (text : string) : option (option BMICategory) :=
if String.eqb text "" then Some None
else option_map Some (find (fun l => String.eqb (label_name l) text) labels).

(** Modelled from the spec: a record of the data file is read from its
    eleven fields, in the order of the input schema: the identity as the
    text it is, then the ten measures. *)
Definition read_Student (fields : list string) : option Student :=
match fields with
| name :: measures =>
    match read_all read_number measures with
    | Some [height; weight; bmi; grip; strength; squat; flexibility;
            best; mean; trials] =>
        Some (mkStudent name height weight bmi grip strength squat flexibility
                best mean trials)
    | _ => None
    end
| [] => None
end.

(** A row of the loaded table: a record of the data file, then the
    category. *)
Definition read_Row (fields : list string) : option Row :=
let n := List.length Student_columns in
match read_Student (firstn n fields), skipn n fields with
| Some s, [category] => option_map (mkRow s) (read_category category)
| _, _ => None
end.

(** A row with the column of the strength tab: a row of the loaded table,
    then the relative strength. *)
Definition read_StrengthRow (fields : list string) : option StrengthRow :=
let n := List.length (columns (R := Row)) in
match read_Row (firstn n fields), skipn n fields with
| Some r, [strength] => option_map (mkStrengthRow r) (read_number strength)
| _, _ => None
end.

(** Modelled from the spec: [parseTransferable] reads a frame of one of
    the two shapes of the script from a text whose first record is the
    header of that shape. *)
Definition parseTransferable (data : list Byte.byte) : option object :=
match csv_reader (decode_utf8 data) with
| header :: body =>
    if same_fields header (columns (R := Row))
    then option_map Table (read_all read_Row body)
    else if same_fields header (columns (R := StrengthRow))
    then option_map StrengthTable (read_all read_StrengthRow body)
    else None
| [] => None
end.

Variable float_repr : Q -> string.

(** [repr] writes a number: the text of a finite float is none of the
    texts of the other floats, and the reader of numbers reads it. *)
Definition number_text (c : cell) : bool :=
match c with
| Number (Fin q) =>
    negb (String.eqb (float_repr q) "") &&
    negb (String.eqb (float_repr q) "inf") &&
    negb (String.eqb (float_repr q) "-inf") &&
    match float_read (float_repr q) with
    | Some _ => true
    | None => false
    end
| _ => true
end.

(** The float [x] of a frame has come back as [y]: missing where it was
    missing, the same infinity, and for a number what the reader of numbers
    reads in the text [repr] wrote. *)
Definition read_as (x y : float) : Prop :=
match x with
| NaN => y = NaN
| Inf negative => y = Inf negative
| Fin q => exists q', float_read (float_repr q) = Some q' /\ y = Fin q'
end.

(** The record [s] has come back as [s']: field by field. *)
Definition Student_read_as (s s' : Student) : Prop :=
Name s' = Name s /\
read_as (Height_cm s) (Height_cm s') /\
read_as (Weight_kg s) (Weight_kg s') /\
read_as (BMI s) (BMI s') /\
read_as (Rel_Grip_perKg s) (Rel_Grip_perKg s') /\
read_as (UB_Strength_kg s) (UB_Strength_kg s') /\
read_as (LB_Squat_1min_reps s) (LB_Squat_1min_reps s') /\
read_as (Flexibility_cm s) (Flexibility_cm s') /\
read_as (MB_OH_Best_m s) (MB_OH_Best_m s') /\
read_as (MB_OH_Mean_m s) (MB_OH_Mean_m s') /\
read_as (MB_OH_Trials s) (MB_OH_Trials s').

Definition Row_read_as (r r' : Row) : Prop :=
Student_read_as (student r) (student r') /\
BMI_Category r' = BMI_Category r.

Definition StrengthRow_read_as (r r' : StrengthRow) : Prop :=
Row_read_as (row r) (row r') /\
read_as (Rel_Strength_perKg r) (Rel_Strength_perKg r').

(** The frame [o] has come back as [o']: the same shape and as many rows,
    row by row in their order. *)
Definition object_read_as (o o' : object) : Prop :=
match o, o' with
| Table df, Table df' => Forall2 Row_read_as df df'
| StrengthTable df, StrengthTable df' => Forall2 StrengthRow_read_as df df'
| _, _ => False
end.

Variable linesep : string.

(** A field is on one line unless the writer quotes it: it holds no
    carriage return and no line feed, or it is one that the writer writes
    in quotes. *)
Definition one_line_unless_quoted (field : string) : bool :=
needs_quoting linesep field ||
negb (contains carriage_return field || contains line_feed field).

Definition written_on_one_line (c : cell) : bool :=
one_line_unless_quoted (cell_text float_repr c).

End Parser.

(** Some field of a row holds a carriage return or a line feed. *)
Definition contains_line_break (fields : list string) : bool :=
existsb (fun field => contains carriage_return field || contains line_feed field)
  fields.

(** A reader of decimals for the sample, the counterpart of [sample_repr]. *)
Fixpoint split_at_point (s : string) : string * option string :=
match s with
| EmptyString => (EmptyString, None)
| String c rest =>
    if Ascii.eqb c "."%char then (EmptyString, Some rest)
    else let (whole, fraction) := split_at_point rest in (String c whole, fraction)
end.

Definition sample_read (text : string) : option Q :=
let (negative, digits) :=
  match text with
  | String "-"%char rest => (true, rest)
  | _ => (false, text)
  end in
match split_at_point digits with
| (whole, Some fraction) =>
    match NilZero.uint_of_string whole, NilZero.uint_of_string fraction with
    | Some w, Some f =>
        let scale := Pos.pow 10 (Pos.of_nat (String.length fraction)) in
        let n := (Z.of_uint w * Zpos scale + Z.of_uint f)%Z in
        Some (Qred (Qmake (if negative then (- n)%Z else n) scale))
    | _, _ => None
    end
| (_, None) => None
end.

(** A data file of one student whose name holds a carriage return, as a
    quoted field of a data file can. *)
Definition two_line_name : string :=
("Ann" ++ String carriage_return "Lee")%string.

Definition two_line_csv : list Student :=
[ mkStudent two_line_name (Fin 150) (Fin 38) (Fin 17) (Fin (2 # 5)) (Fin 19)
    (Fin 6) (Fin 9) (Fin 5) (Fin (9 # 2)) (Fin 2) ].

(** ** The sidebar *)

(** The code of a category in the ordered categorical that [pd.cut] makes:
    its position among the labels. *)
Definition code (c : BMICategory) : nat :=
match c with
| Underweight => 0
| Normal => 1
| Overweight => 2
| Obese => 3
end.

(** [series.dropna()] on the category column. *)
Definition dropna (series : list (option BMICategory)) : list BMICategory :=
flat_map (fun c => match c with Some l => [l] | None => [] end) series.

(** [series.unique()]: the values, each once, in the order in which they
    first appear. *)
Fixpoint unique (values : list BMICategory) : list BMICategory :=
match values with
| [] => []
| v :: rest => v :: filter (fun w => negb (BMICategory_eqb w v)) (unique rest)
end.

(** [bmi_options = ['All'] + df['BMI_Category'].dropna().unique().tolist()] *)
Definition bmi_options (df : DataFrame) : list string :=
"All"%string :: map label_name (unique (dropna (map BMI_Category df))).

(** ** Counting rows *)

(** The rows of a frame that carry category [c], and those that carry
    none. *)
Definition in_category (c : BMICategory) (r : Row) : bool :=
match BMI_Category r with
| Some c' => BMICategory_eqb c' c
| None => false
end.

Definition uncategorised (r : Row) : bool :=
match BMI_Category r with
| Some _ => false
| None => true
end.

(** A float that is a number. *)
Definition finite (x : float) : bool :=
match x with
| Fin _ => true
| _ => false
end.

From Stdlib Require OrderedTypeEx.

(** * Properties *)

(** ** Floats *)

Lemma Qle_bool_false (x y : Q) : Qle_bool x y = false <-> (y < x)%Q.
Proof.
  split; intros H.
  - apply Qnot_le_lt. intros L. apply Qle_bool_iff in L. congruence.
  - destruct (Qle_bool x y) eqn:E; trivial.
    apply Qle_bool_iff in E. exfalso. exact (Qlt_not_le _ _ H E).
Qed.

(** ** The bands of [pd.cut] *)

Section CutBands.

Local Open Scope Q_scope.

(** The position [searchsorted] finds, band by band. *)
Lemma cut_Fin (b : Q) :
  cut (Fin b) =
    if Qle_bool b 0 then None
    else if Qle_bool b (37 # 2) then Some Underweight
    else if Qle_bool b 25 then Some Normal
    else if Qle_bool b 30 then Some Overweight
    else if Qle_bool b 100 then Some Obese
    else None.
Proof.
  unfold cut, bins; cbn [searchsorted_left fle].
  destruct (Qle_bool b 0); [reflexivity|].
  destruct (Qle_bool b (37 # 2)); [reflexivity|].
  destruct (Qle_bool b 25); [reflexivity|].
  destruct (Qle_bool b 30); [reflexivity|].
  destruct (Qle_bool b 100); reflexivity.
Qed.

Lemma cut_in_range (x : float) (c : BMICategory) :
  cut x = Some c -> exists b, x = Fin b /\ 0 < b /\ b <= 100.
Proof.
  destruct x as [|s|b]; [discriminate | destruct s; discriminate |].
  rewrite cut_Fin. intros H. exists b. split; [reflexivity|].
  destruct (Qle_bool b 0) eqn:E0; [discriminate|].
  apply Qle_bool_false in E0. split; [exact E0|].
  destruct (Qle_bool b (37 # 2)) eqn:E1; [apply Qle_bool_iff in E1; lra|].
  destruct (Qle_bool b 25) eqn:E2; [apply Qle_bool_iff in E2; lra|].
  destruct (Qle_bool b 30) eqn:E3; [apply Qle_bool_iff in E3; lra|].
  destruct (Qle_bool b 100) eqn:E4; [apply Qle_bool_iff in E4; lra|].
  discriminate.
Qed.

End CutBands.

Ltac band_cases b :=
  rewrite !(cut_Fin b);
  destruct (Qle_bool b 0) eqn:E0;
  destruct (Qle_bool b (37 # 2)) eqn:E1;
  destruct (Qle_bool b 25) eqn:E2;
  destruct (Qle_bool b 30) eqn:E3;
  destruct (Qle_bool b 100) eqn:E4;
  repeat match goal with
    | H : Qle_bool _ _ = true |- _ => apply Qle_bool_iff in H
    | H : Qle_bool _ _ = false |- _ => apply Qle_bool_false in H
    end.

(** C1: [pd.cut] sends a BMI [b] to Underweight exactly on (0,18.5], to
    Normal exactly on (18.5,25], to Overweight exactly on (25,30], to Obese
    exactly on (30,100], and to the absent category exactly outside (0,100];
    a missing BMI and an infinite one have the absent category; [cut] is a
    total function, it has no error case; and the BMIs
    [17.0, 22.0, 27.0, 33.0, 50.5] get
    [Underweight, Normal, Overweight, Obese, Obese]. *)
Theorem C1_cut_bands :
  (forall b : Q,
      (cut (Fin b) = Some Underweight <-> 0 < b /\ b <= 37 # 2) /\
      (cut (Fin b) = Some Normal <-> 37 # 2 < b /\ b <= 25) /\
      (cut (Fin b) = Some Overweight <-> 25 < b /\ b <= 30) /\
      (cut (Fin b) = Some Obese <-> 30 < b /\ b <= 100) /\
      (cut (Fin b) = None <-> ~ (0 < b /\ b <= 100)))%Q /\
  cut NaN = None /\
  (forall negative, cut (Inf negative) = None) /\
  map cut [Fin 17; Fin 22; Fin 27; Fin 33; Fin (101 # 2)]
    = [Some Underweight; Some Normal; Some Overweight; Some Obese; Some Obese].
Proof.
  split; [|split; [reflexivity | split; [intros []; reflexivity | reflexivity]]].
  intros b.
  band_cases b; repeat apply conj; intros;
    try discriminate; try reflexivity; try lra;
    match goal with
    | |- ~ _ => lra
    | H : ~ _ |- _ => exfalso; apply H; lra
    end.
Qed.

(** ** Facts on the pandas operations *)

Section PandasFacts.

Context {A : Type}.

Lemma bool_index_map (f : A -> bool) (df : list A) :
  bool_index df (map f df) = filter f df.
Proof.
  induction df as [|r df IH]; simpl; [reflexivity|].
  rewrite IH. reflexivity.
Qed.

Lemma bool_index_map_via {B} (g : A -> B) (f : B -> bool) (df : list A) :
  bool_index df (map f (map g df)) = filter (fun r => f (g r)) df.
Proof. rewrite map_map. apply bool_index_map. Qed.

Lemma filter_twice (f g : A -> bool) (l : list A) :
  filter g (filter f l) = filter (fun x => f x && g x) l.
Proof.
  induction l as [|x l IH]; simpl; [reflexivity|].
  destruct (f x); simpl; [destruct (g x)|]; rewrite IH; reflexivity.
Qed.

Lemma filter_all (f : A -> bool) (l : list A) :
  (forall x, In x l -> f x = true) -> filter f l = l.
Proof.
  induction l as [|x l IH]; simpl; intros H; [reflexivity|].
  rewrite (H x (or_introl eq_refl)), IH; auto.
Qed.

Lemma filter_none (f : A -> bool) (l : list A) :
  (forall x, In x l -> f x = false) -> filter f l = [].
Proof.
  induction l as [|x l IH]; simpl; intros H; [reflexivity|].
  rewrite (H x (or_introl eq_refl)), IH; auto.
Qed.

Lemma assign_map {B C} (mk : A -> B -> C) (g : A -> B) (df : list A) :
  assign mk df (map g df) = map (fun r => mk r (g r)) df.
Proof.
  unfold assign. induction df as [|r df IH]; simpl; [reflexivity|].
  rewrite IH. reflexivity.
Qed.

End PandasFacts.

Lemma isin_spec (x : string) (values : list string) :
  existsb (String.eqb x) values = true <-> In x values.
Proof.
  rewrite existsb_exists. split.
  - intros [y [Hy E]]. apply String.eqb_eq in E. subst. exact Hy.
  - intros H. exists x. split; [exact H | apply String.eqb_refl].
Qed.

Lemma label_name_inj (a b : BMICategory) : label_name a = label_name b -> a = b.
Proof. destruct a, b; simpl; intros H; try reflexivity; discriminate. Qed.

Lemma BMICategory_eqb_eq (a b : BMICategory) : BMICategory_eqb a b = true <-> a = b.
Proof. destruct a, b; simpl; split; intros H; try reflexivity; discriminate. Qed.

(** Comparing the codes is comparing the label with the scalar. *)
Lemma categorical_eq_pointwise (series : list (option BMICategory)) (other : string) :
  categorical_eq series other =
    map (fun c => match c with
                  | Some c' => String.eqb (label_name c') other
                  | None => false
                  end) series.
Proof.
  unfold categorical_eq.
  destruct (find _ labels) as [code|] eqn:F.
  - apply find_some in F. destruct F as [_ E]. apply String.eqb_eq in E. subst other.
    apply map_ext. intros [c'|]; [|reflexivity].
    destruct (BMICategory_eqb c' code) eqn:B.
    + apply BMICategory_eqb_eq in B. subst. symmetry. apply String.eqb_refl.
    + symmetry. apply String.eqb_neq. intros H. apply label_name_inj in H.
      apply BMICategory_eqb_eq in H. congruence.
  - apply map_ext. intros [c'|]; [|reflexivity].
    symmetry. apply String.eqb_neq. intros H.
    assert (I : In c' labels) by (destruct c'; simpl; tauto).
    pose proof (find_none _ _ F c' I) as N. simpl in N.
    rewrite H, String.eqb_refl in N. discriminate.
Qed.

(** ** The Filter Engine *)

(** The script's two indexing steps are one pass with the spec's predicate. *)
Lemma apply_filters_filter (df : DataFrame) (S : list string) (C : string) :
  apply_filters df S C = filter (keeps S C) df.
Proof.
  unfold apply_filters, Series.isin.
  rewrite bool_index_map_via.
  destruct (String.eqb C "All") eqn:E; simpl.
  - apply filter_ext. intros r. unfold keeps. rewrite E. simpl.
    rewrite andb_true_r. reflexivity.
  - rewrite categorical_eq_pointwise, bool_index_map_via, filter_twice.
    apply filter_ext. intros r. unfold keeps. rewrite E. reflexivity.
Qed.

Lemma keeps_spec (S : list string) (C : string) (r : Row) :
  keeps S C r = true <->
  In (row_name r) S /\
  (C = "All"%string \/ option_map label_name (BMI_Category r) = Some C).
Proof.
  unfold keeps.
  rewrite andb_true_iff, orb_true_iff, isin_spec, String.eqb_eq.
  destruct (BMI_Category r) as [c|]; simpl.
  - rewrite String.eqb_eq. intuition congruence.
  - intuition congruence.
Qed.

Lemma load_data_map (csv : list Student) :
  load_data csv = map (fun s => mkRow s (cut (BMI s))) csv.
Proof. unfold load_data. rewrite map_map. apply (assign_map mkRow). Qed.

(** C3: the filter returns exactly the rows of the table whose identity is
    in the set and for which the category argument is "All" or is the row's
    derived category, in the order of the table (it is the table with the
    other rows struck out); with the full identity set and "All" it returns
    the table. *)
Theorem C3_filter_exact (table : DataFrame) (S : list string) (C : string) :
  apply_filters table S C = filter_spec table S C /\
  (forall r, In r (apply_filters table S C) <->
             In r table /\ In (row_name r) S /\
             (C = "All"%string \/ option_map label_name (BMI_Category r) = Some C)) /\
  apply_filters table (student_names table) "All" = table.
Proof.
  repeat split.
  - apply apply_filters_filter.
  - rewrite apply_filters_filter in H. apply filter_In in H. tauto.
  - rewrite apply_filters_filter in H. apply filter_In in H.
    destruct H as [_ H]. apply keeps_spec in H. tauto.
  - rewrite apply_filters_filter in H. apply filter_In in H.
    destruct H as [_ H]. apply keeps_spec in H. tauto.
  - intros [H1 H2]. rewrite apply_filters_filter. apply filter_In.
    split; [exact H1 | apply keeps_spec; exact H2].
  - rewrite apply_filters_filter. apply filter_all. intros r H.
    apply keeps_spec. split; [|left; reflexivity].
    unfold student_names. apply in_map. exact H.
Qed.

(** C6: the filter is a function of the table, the identity set and the
    category argument, and filtering its result again with the same set and
    category changes nothing. *)
Theorem C6_filter_idempotent (table : DataFrame) (S : list string) (C : string) :
  apply_filters (apply_filters table S C) S C = apply_filters table S C.
Proof.
  rewrite !apply_filters_filter, filter_twice.
  apply filter_ext. intros r. apply andb_diag.
Qed.

Lemma apply_filters_nobody (table : DataFrame) (C : string) :
  apply_filters table [] C = [].
Proof. rewrite apply_filters_filter. apply filter_none. reflexivity. Qed.

(** C10: under a category argument other than "All", no row of the filtered
    view has an absent category; in a view of the loaded table every row has
    a BMI that is present and lies in (0,100]. *)
Theorem C10_concrete_category_excludes_absent
  (csv : list Student) (S : list string) (C : string) (r : Row) :
  C <> "All"%string ->
  In r (apply_filters (load_data csv) S C) ->
  BMI_Category r <> None /\
  exists b, BMI (student r) = Fin b /\ (0 < b /\ b <= 100)%Q.
Proof.
  intros NA H.
  rewrite apply_filters_filter in H. apply filter_In in H.
  destruct H as [I K]. apply keeps_spec in K. destruct K as [_ [K|K]]; [contradiction|].
  rewrite load_data_map in I. apply in_map_iff in I. destruct I as [s [E _]].
  subst r. simpl in *.
  destruct (cut (BMI s)) as [c|] eqn:Q; [|discriminate].
  split; [discriminate|]. exact (cut_in_range _ _ Q).
Qed.

Lemma C10_witness :
  "Normal"%string <> "All"%string /\
  In (mkRow (nth 0 sample_csv (mkStudent "" NaN NaN NaN NaN NaN NaN NaN NaN NaN NaN))
        (Some Normal))
     (apply_filters (load_data sample_csv) ["Zoe"; "Mia"]%string "Normal") /\
  exists b, Fin 22 = Fin b /\ (0 < b /\ b <= 100)%Q.
Proof.
  assert (N : "Normal"%string <> "All"%string) by discriminate.
  assert (I : In (mkRow (nth 0 sample_csv
                           (mkStudent "" NaN NaN NaN NaN NaN NaN NaN NaN NaN NaN))
                    (Some Normal))
                 (apply_filters (load_data sample_csv) ["Zoe"; "Mia"]%string "Normal"))
    by (vm_compute; left; reflexivity).
  split; [exact N | split; [exact I |]].
  exact (proj2 (C10_concrete_category_excludes_absent _ _ _ _ N I)).
Defined.

(** ** Arithmetic of floats *)

Section FloatFacts.

Lemma count_present (series : list float) :
  Series.count series = List.length (present series).
Proof. reflexivity. Qed.

(** [fle] is a total preorder on the floats that are not NaN. *)
Lemma fle_refl (x : float) : notna x = true -> fle x x = true.
Proof. destruct x as [|[]|q]; simpl; try discriminate; auto. intros _. apply Qle_bool_iff, Qle_refl. Qed.

Lemma fle_total (x y : float) :
  notna x = true -> notna y = true -> fle x y = false -> fle y x = true.
Proof.
  destruct x as [|[]|a], y as [|[]|b]; simpl; try discriminate; auto.
  intros _ _ H. apply Qle_bool_false in H. apply Qle_bool_iff, Qlt_le_weak, H.
Qed.

Lemma fle_trans (x y z : float) : fle x y = true -> fle y z = true -> fle x z = true.
Proof.
  destruct x as [|[]|a], y as [|[]|b], z as [|[]|c]; simpl; try discriminate; auto.
  intros H1 H2. apply Qle_bool_iff in H1, H2. apply Qle_bool_iff.
  eapply Qle_trans; eassumption.
Qed.

Lemma fmax_notna (x y : float) : notna x = true -> notna y = true -> notna (fmax x y) = true.
Proof. unfold fmax. destruct (fle x y); auto. Qed.

(** Folding [fmax] over floats that are not NaN finds their maximum. *)
Lemma fold_fmax_maximum (values : list float) (v : float) :
  notna v = true ->
  (forall x, In x values -> notna x = true) ->
  is_maximum (v :: values) (fold_left fmax values v).
Proof.
  revert v. induction values as [|w values IH]; intros v Hv Hall; simpl.
  - split; [left; reflexivity|]. intros x [<-|[]]. apply fle_refl, Hv.
  - assert (Hw : notna w = true) by (apply Hall; left; reflexivity).
    destruct (IH (fmax v w) (fmax_notna _ _ Hv Hw)) as [I U].
    { intros x Hx. apply Hall. right. exact Hx. }
    assert (Uv : fle v (fmax v w) = true /\ fle w (fmax v w) = true).
    { unfold fmax. destruct (fle v w) eqn:E.
      - split; [exact E | apply fle_refl, Hw].
      - split; [apply fle_refl, Hv | apply fle_total; assumption]. }
    split.
    + destruct I as [I|I]; [|right; right; exact I].
      assert (D : fmax v w = v \/ fmax v w = w)
        by (unfold fmax; destruct (fle v w); auto).
      destruct D as [D|D]; [left | right; left];
        (transitivity (fmax v w); [symmetry; exact D | exact I]).
    + intros x [<-|[<-|Hx]].
      * eapply fle_trans; [apply Uv | apply U; left; reflexivity].
      * eapply fle_trans; [apply Uv | apply U; left; reflexivity].
      * apply U. right. exact Hx.
Qed.

End FloatFacts.

(** ** The aggregates *)

Lemma fillna_notna (fill x : float) : notna fill = true -> notna (Series.fillna fill x) = true.
Proof. destruct x; simpl; auto. Qed.

Lemma max_none (series : list float) : present series = [] -> Series.max series = NaN.
Proof.
  intros P. unfold Series.max. rewrite count_present, P.
  destruct (map _ series); reflexivity.
Qed.

Lemma max_maximum (series : list float) :
  present series <> [] -> is_maximum (present series) (Series.max series).
Proof.
  intros P. unfold Series.max. rewrite count_present.
  destruct (present series) as [|p ps] eqn:E; [congruence|]. clear P.
  assert (Ip : In p (present series)) by (rewrite E; left; reflexivity).
  change (Nat.ltb (List.length (p :: ps)) 1) with false.
  rewrite <- E.
  destruct series as [|x series]; [discriminate|].
  change (map (Series.fillna (Inf true)) (x :: series))
    with (Series.fillna (Inf true) x :: map (Series.fillna (Inf true)) series).
  cbv iota.
  destruct (fold_fmax_maximum (map (Series.fillna (Inf true)) series)
              (Series.fillna (Inf true) x)) as [I U].
  { apply fillna_notna. reflexivity. }
  { intros y Hy. apply in_map_iff in Hy. destruct Hy as [z [<- _]].
    apply fillna_notna. reflexivity. }
  set (m := fold_left fmax _ _) in *.
  change (Series.fillna (Inf true) x :: map (Series.fillna (Inf true)) series)
    with (map (Series.fillna (Inf true)) (x :: series)) in I, U.
  assert (Up : forall y, In y (present (x :: series)) -> fle y m = true).
  { intros y Hy. apply filter_In in Hy. destruct Hy as [Hy Ny].
    apply U. apply in_map_iff. exists y. split; [|exact Hy].
    destruct y; [discriminate| |]; reflexivity. }
  split; [|exact Up].
  apply in_map_iff in I. destruct I as [z [Ez Hz]].
  destruct z as [|s|q].
  - simpl in Ez. pose proof (Up p Ip) as L. rewrite <- Ez in L.
    assert (p = Inf true).
    { apply filter_In in Ip. destruct Ip as [_ Np].
      destruct p as [|[]|a]; simpl in *; try discriminate; reflexivity. }
    subst p. rewrite <- Ez. exact Ip.
  - simpl in Ez. rewrite <- Ez. apply filter_In. split; [exact Hz | reflexivity].
  - simpl in Ez. rewrite <- Ez. apply filter_In. split; [exact Hz | reflexivity].
Qed.

(** ** Running the script *)

Section Steps.

Context {A : Type}.

Lemma bind_deref (l : loc) (o : object) (k : object -> M A) (s : state) :
  nth_error (heap s) l = Some o -> bind (deref l) k s = k o s.
Proof. intros H. unfold bind, deref. rewrite H. reflexivity. Qed.

Lemma bind_new (o : object) (k : loc -> M A) (s : state) :
  bind (new o) k s = k (List.length (heap s)) (mkState (heap s ++ [o]) (page s)).
Proof. reflexivity. Qed.

Lemma bind_emit (e : element) (k : unit -> M A) (s : state) :
  bind (emit e) k s = k tt (mkState (heap s) (page s ++ [e])).
Proof. reflexivity. Qed.

Lemma bind_mutate (l : loc) (f : object -> object) (o : object)
    (k : unit -> M A) (s : state) :
  nth_error (heap s) l = Some o ->
  bind (mutate l f) k s = k tt (mkState (update l (f o) (heap s)) (page s)).
Proof. intros H. unfold bind, mutate. rewrite H. reflexivity. Qed.

Lemma bind_lift {B} (r : outcome B) (k : B -> M A) (s : state) :
  bind (lift r) k s =
    match r with
    | Returned b => k b s
    | Raised e => (Raised e, s)
    end.
Proof. unfold bind, lift. destruct r; reflexivity. Qed.

End Steps.

Lemma nth_error_snoc {A} (h : list A) (o : A) :
  nth_error (h ++ [o]) (List.length h) = Some o.
Proof. rewrite nth_error_app2, Nat.sub_diag by lia. reflexivity. Qed.

Lemma nth_error_old {A} (h h' : list A) (l : nat) (o : A) :
  nth_error h l = Some o -> nth_error (h ++ h') l = Some o.
Proof.
  intros H. rewrite nth_error_app1; [exact H|].
  apply nth_error_Some. congruence.
Qed.

Lemma update_snoc (h : list object) (o o' : object) :
  update (List.length h) o' (h ++ [o]) = h ++ [o'].
Proof. induction h as [|x h IH]; simpl; [reflexivity | rewrite IH; reflexivity]. Qed.

Ltac step_deref :=
  erewrite bind_deref
    by (cbn [heap]; first [eassumption | apply nth_error_snoc]).

Ltac step_mutate :=
  erewrite bind_mutate
    by (cbn [heap]; first [eassumption | apply nth_error_snoc]).

Section Runs.

Variable float_repr : Q -> string.
Variable linesep : string.

(** The Filter Engine allocates; it changes no object. *)
Lemma filter_engine_run (h : list object) (p : list element) (df : loc)
    (table : DataFrame) (S : list string) (C : string) :
  nth_error h df = Some (Table table) ->
  filter_engine df S C (mkState h p) =
    if negb (String.eqb C "All")
    then (Returned (List.length h + 1)%nat,
          mkState (h ++ [Table (bool_index table (Series.isin (map row_name table) S));
                         Table (apply_filters table S C)]) p)
    else (Returned (List.length h),
          mkState (h ++ [Table (apply_filters table S C)]) p).
Proof.
  intros H. unfold filter_engine.
  step_deref.
  rewrite bind_new. cbn [heap page].
  unfold apply_filters, getitem, getitem_mask, object_rows.
  destruct (negb (String.eqb C "All")); [|reflexivity].
  step_deref.
  unfold new, getitem_category, object_rows. cbn [heap page].
  rewrite length_app, <- app_assoc. reflexivity.
Qed.

Lemma load_filter_run (csv : list Student) (S : list string) (C : string) :
  run (bind (load csv) (fun df => filter_engine df S C)) =
    (Returned (view_loc C), filtered_state csv S C) /\
  nth_error (heap (filtered_state csv S C)) (view_loc C)
    = Some (Table (apply_filters (load_data csv) S C)) /\
  nth_error (heap (filtered_state csv S C)) 0%nat = Some (Table (load_data csv)).
Proof.
  unfold run, load, view_loc, filtered_state. rewrite bind_new. cbn [heap page].
  rewrite (filter_engine_run [Table (load_data csv)] [] 0%nat (load_data csv))
    by reflexivity.
  destruct (negb (String.eqb C "All")); repeat split.
Qed.

(** The overview, on a view whose largest squat count converts. *)
Lemma tab1_returns (h : list object) (p : list element) (v : loc)
    (view : object) (reps : Z) :
  nth_error h v = Some view ->
  py_int (Series.max (getitem LB_Squat_1min_reps view)) = Returned reps ->
  tab1 v (mkState h p) =
    (Returned tt, mkState h (p ++ overview_head view ++ overview_tail view reps)).
Proof.
  intros H R. unfold tab1.
  step_deref.
  rewrite !bind_emit. cbn [heap page].
  rewrite bind_lift, R, bind_emit. unfold emit. cbn [heap page].
  unfold overview_head, overview_tail. rewrite <- !app_assoc. reflexivity.
Qed.

(** The overview, on a view whose largest squat count does not convert:
    three metrics are shown, then the exception stops the script. *)
Lemma tab1_raises (h : list object) (p : list element) (v : loc)
    (view : object) (e : exn) :
  nth_error h v = Some view ->
  py_int (Series.max (getitem LB_Squat_1min_reps view)) = Raised e ->
  tab1 v (mkState h p) = (Raised e, mkState h (p ++ overview_head view)).
Proof.
  intros H R. unfold tab1.
  step_deref.
  rewrite !bind_emit. cbn [heap page].
  rewrite bind_lift, R.
  unfold overview_head. rewrite <- !app_assoc. reflexivity.
Qed.

(** The strength tab: a copy is made and gets the column, a sorted frame is
    made of it; the frame the tab was given stays as it was. *)
Lemma tab2_run (h : list object) (p : list element) (v : loc) (view : DataFrame) :
  nth_error h v = Some (Table view) ->
  tab2 v (mkState h p) =
    (Returned (List.length h + 1)%nat,
     mkState (h ++ [StrengthTable (with_strength view);
                    StrengthTable (sorted_frame view)])
             (p ++ strength_page (sorted_frame view))).
Proof.
  intros H. unfold tab2.
  step_deref.
  rewrite bind_new. cbn [heap page].
  step_deref.
  step_mutate. cbn [heap page].
  rewrite update_snoc.
  step_deref.
  rewrite bind_new. cbn [heap page].
  step_deref.
  rewrite !bind_emit. cbn [heap page].
  rewrite bind_lift. cbn [fig_rel getitem_strength sort_values_Name setitem_strength].
  rewrite bind_emit, bind_lift. cbn [getitem_display heap page].
  rewrite bind_emit. unfold ret. cbn [heap page].
  rewrite length_app, <- !app_assoc. reflexivity.
Qed.

Lemma tab3_run (h : list object) (p : list element) (l : loc) (frame : object) :
  nth_error h l = Some frame ->
  tab3 l (mkState h p) = (Returned tt, mkState h (p ++ throw_page frame)).
Proof.
  intros H. unfold tab3.
  step_deref.
  rewrite bind_emit. unfold emit. cbn [heap page].
  unfold throw_page. rewrite <- app_assoc. reflexivity.
Qed.

Lemma tab4_run (h : list object) (p : list element) (l : loc) (frame : object) :
  nth_error h l = Some frame ->
  tab4 float_repr linesep l (mkState h p) =
    (Returned tt, mkState h (p ++ explorer_page float_repr linesep frame)).
Proof.
  intros H. unfold tab4.
  step_deref.
  rewrite bind_emit. unfold emit. cbn [heap page].
  unfold explorer_page. rewrite <- app_assoc. reflexivity.
Qed.

(** The tabs, from the Filter Engine's frame on. *)
Lemma tabs_run (h : list object) (p : list element) (v : loc) (view : DataFrame) :
  nth_error h v = Some (Table view) ->
  tabs float_repr linesep v (mkState h p) =
    match py_int (Series.max (getitem LB_Squat_1min_reps (Table view))) with
    | Returned reps =>
        (Returned (List.length h + 1)%nat,
         mkState (h ++ [StrengthTable (with_strength view);
                        StrengthTable (sorted_frame view)])
           (p ++ overview_head (Table view) ++ overview_tail (Table view) reps
              ++ strength_page (sorted_frame view)
              ++ throw_page (StrengthTable (sorted_frame view))
              ++ explorer_page float_repr linesep (StrengthTable (sorted_frame view))))
    | Raised e => (Raised e, mkState h (p ++ overview_head (Table view)))
    end.
Proof.
  intros H. unfold tabs.
  destruct (py_int _) as [reps|e] eqn:R.
  - unfold bind at 1. rewrite (tab1_returns h p v (Table view) reps H R).
    unfold bind at 1. rewrite (tab2_run h _ v view H).
    assert (F : nth_error (h ++ [StrengthTable (with_strength view);
                                 StrengthTable (sorted_frame view)])
                  (List.length h + 1) = Some (StrengthTable (sorted_frame view))).
    { rewrite nth_error_app2 by lia.
      replace (List.length h + 1 - List.length h)%nat with 1%nat by lia. reflexivity. }
    unfold bind at 1. rewrite (tab3_run _ _ _ _ F).
    unfold bind at 1. rewrite (tab4_run _ _ _ _ F).
    unfold ret. rewrite <- !app_assoc. reflexivity.
  - unfold bind at 1. rewrite (tab1_raises h p v (Table view) e H R). reflexivity.
Qed.

(** One run of the script. *)
Lemma script_run (csv : list Student) (S : list string) (C : string) :
  run (script float_repr linesep csv S C) =
    tabs float_repr linesep (view_loc C) (filtered_state csv S C).
Proof.
  unfold run, script, load. rewrite bind_new. cbn [heap page app List.length].
  unfold bind.
  rewrite (filter_engine_run [Table (load_data csv)] [] 0%nat (load_data csv) S C eq_refl).
  unfold view_loc, filtered_state. destruct (negb _); reflexivity.
Qed.

End Runs.

(** C7: every row of a filtered view is a row of the table; the empty
    identity set gives the empty view, whatever the category argument; and
    the script, run with nobody selected, gets through the Filter Engine
    without an exception, with the empty frame as its result. *)
Theorem C7_view_subset (table : DataFrame) (S : list string) (C : string) :
  incl (apply_filters table S C) table /\
  apply_filters table [] C = [] /\
  (forall csv : list Student,
      exists s : state,
        run (bind (load csv) (fun df => filter_engine df [] C))
          = (Returned (view_loc C), s) /\
        nth_error (heap s) (view_loc C) = Some (Table [])).
Proof.
  split; [rewrite apply_filters_filter; apply incl_filter|].
  split; [apply apply_filters_nobody|].
  intros csv. exists (filtered_state csv [] C).
  destruct (load_filter_run csv [] C) as [L [V _]].
  split; [exact L|]. rewrite apply_filters_nobody in V. exact V.
Qed.

(** ** Sorting *)

Section Sorting.

Context {A : Type} (key : A -> string).

Let key_le (a b : A) : Prop := String.leb (key a) (key b) = true.

Lemma insert_by_perm (r : A) (sorted : list A) :
  Permutation (insert_by key r sorted) (r :: sorted).
Proof.
  induction sorted as [|r' rest IH]; simpl; [apply Permutation_refl|].
  destruct (String.leb (key r) (key r')); [apply Permutation_refl|].
  eapply perm_trans; [apply perm_skip, IH | apply perm_swap].
Qed.

Lemma sort_values_perm (df : list A) : Permutation (sort_values key df) df.
Proof.
  induction df as [|r df IH]; simpl; [constructor|].
  eapply perm_trans; [apply insert_by_perm | apply perm_skip, IH].
Qed.

Lemma insert_by_hd (r a : A) (sorted : list A) :
  key_le a r -> HdRel key_le a sorted -> HdRel key_le a (insert_by key r sorted).
Proof.
  intros Har H. destruct sorted as [|r' rest]; simpl.
  - constructor. exact Har.
  - destruct (String.leb (key r) (key r')); constructor;
      [exact Har | inversion H; assumption].
Qed.

Lemma insert_by_sorted (r : A) (sorted : list A) :
  Sorted key_le sorted -> Sorted key_le (insert_by key r sorted).
Proof.
  induction 1 as [|r' rest S IH H]; simpl.
  - repeat constructor.
  - destruct (String.leb (key r) (key r')) eqn:E.
    + constructor; [constructor; assumption | constructor; exact E].
    + constructor; [exact IH|].
      apply insert_by_hd; [|exact H].
      unfold key_le. destruct (String.leb_total (key r) (key r')) as [L|L];
        [congruence | exact L].
Qed.

Lemma sort_values_sorted (df : list A) : Sorted key_le (sort_values key df).
Proof.
  induction df as [|r df IH]; simpl; [constructor | apply insert_by_sorted, IH].
Qed.

End Sorting.

(** ** The frame of the later tabs *)

Lemma relative_strength_map (view : DataFrame) :
  relative_strength (Table view) =
    map (fun r => truediv (UB_Strength_kg (student r)) (Weight_kg (student r))) view.
Proof.
  unfold relative_strength, Series.truediv_series, getitem, object_rows.
  induction view as [|r view IH]; simpl; [reflexivity | rewrite IH; reflexivity].
Qed.

Lemma with_strength_map (view : DataFrame) :
  with_strength view =
    map (fun r => mkStrengthRow r
                    (truediv (UB_Strength_kg (student r)) (Weight_kg (student r))))
        view.
Proof. unfold with_strength. rewrite relative_strength_map. apply assign_map. Qed.

Lemma sorted_frame_rows (view : DataFrame) :
  Permutation (map row (sorted_frame view)) view.
Proof.
  unfold sorted_frame.
  eapply perm_trans; [apply Permutation_map, sort_values_perm|].
  rewrite with_strength_map, map_map. simpl. rewrite map_id. apply Permutation_refl.
Qed.

Lemma sorted_frame_strength (view : DataFrame) (r : StrengthRow) :
  In r (sorted_frame view) ->
  Rel_Strength_perKg r =
    truediv (UB_Strength_kg (student (row r))) (Weight_kg (student (row r))).
Proof.
  intros H. unfold sorted_frame in H.
  apply (Permutation_in _ (sort_values_perm _ _)) in H.
  rewrite with_strength_map in H. apply in_map_iff in H.
  destruct H as [r0 [<- _]]. reflexivity.
Qed.

Lemma sorted_frame_sorted (view : DataFrame) : Sorted name_le (sorted_frame view).
Proof. apply (sort_values_sorted (fun r => row_name (row r))). Qed.

Lemma sorted_frame_length (view : DataFrame) :
  List.length (sorted_frame view) = List.length view.
Proof.
  rewrite <- (Permutation_length (sorted_frame_rows view)). symmetry. apply length_map.
Qed.

(** ** The overview on a view without squat counts *)

(** Where no row has a squat count the overview stops with [ValueError],
    after the count and the two means. *)
Lemma overview_raises_without_squat (float_repr : Q -> string) (linesep : string)
    (h : list object) (p : list element) (v : loc) (view : DataFrame) :
  nth_error h v = Some (Table view) ->
  present (getitem LB_Squat_1min_reps (Table view)) = [] ->
  tabs float_repr linesep v (mkState h p) =
    (Raised ValueError, mkState h (p ++ overview_head (Table view))).
Proof.
  intros H P. rewrite (tabs_run float_repr linesep h p v view H).
  rewrite (max_none _ P). reflexivity.
Qed.

(** C2, on the code: with no student selected the script shows a count of 0
    and two undefined means and then stops with [ValueError], for every
    table and every category argument; the largest squat count of the empty
    view is the undefined marker, and it is its conversion to an integer
    that raises.  The same happens in the sample table when only Adam, who
    has no squat count, is selected. *)
Theorem C2_empty_view_raises (float_repr : Q -> string) (linesep : string)
    (csv : list Student) (C : string) :
  run (script float_repr linesep csv [] C) =
    (Raised ValueError,
     mkState (heap (filtered_state csv [] C))
       [metric "Total Students" (IntValue 0);
        metric "Avg BMI" (Formatted NaN 1);
        metric "Avg Relative Grip" (Formatted NaN 2)]) /\
  Series.max (getitem LB_Squat_1min_reps (Table [])) = NaN /\
  py_int NaN = Raised ValueError /\
  fst (run (script float_repr linesep sample_csv ["Adam"%string] "All"))
    = Raised ValueError.
Proof.
  split; [|split; [reflexivity | split; [reflexivity|]]].
  - rewrite script_run.
    destruct (load_filter_run csv [] C) as [_ [V _]].
    rewrite apply_filters_nobody in V.
    destruct (filtered_state csv [] C) as [h p] eqn:F.
    assert (P : p = []).
    { unfold filtered_state in F. destruct (negb _); inversion F; reflexivity. }
    subst p. cbn [heap] in *.
    rewrite (overview_raises_without_squat float_repr linesep h [] _ [] V eq_refl).
    reflexivity.
  - vm_compute. reflexivity.
Qed.

(** ** Which frame each stage reads *)

(** One run of the script, from the sidebar's choices to the page. *)
Lemma script_outcome (float_repr : Q -> string) (linesep : string)
    (csv : list Student) (S : list string) (C : string) :
  let view := apply_filters (load_data csv) S C in
  let frame := StrengthTable (sorted_frame view) in
  let before := filtered_state csv S C in
  match py_int (Series.max (getitem LB_Squat_1min_reps (Table view))) with
  | Returned reps =>
      run (script float_repr linesep csv S C) =
        (Returned (List.length (heap before) + 1)%nat,
         mkState (heap before ++ [StrengthTable (with_strength view); frame])
           (overview_head (Table view) ++ overview_tail (Table view) reps
              ++ strength_page (sorted_frame view)
              ++ throw_page frame
              ++ explorer_page float_repr linesep frame))
  | Raised e =>
      run (script float_repr linesep csv S C) =
        (Raised e, mkState (heap before) (overview_head (Table view)))
  end.
Proof.
  intros view frame before.
  destruct (load_filter_run csv S C) as [_ [V _]].
  rewrite script_run. subst before.
  assert (P : page (filtered_state csv S C) = []).
  { unfold filtered_state. destruct (negb _); reflexivity. }
  destruct (filtered_state csv S C) as [h p]. cbn [heap page] in *. subst p.
  rewrite (tabs_run float_repr linesep h [] _ view V).
  destruct (py_int _); reflexivity.
Qed.

(** C9, as the code has it.  The Filter Engine leaves its frame in the
    store; the tabs change no object that was there before them (the store
    after them is the store before them with two new frames: the copy that
    got the strength column, and that copy sorted), so the loaded table and
    the Filter Engine's frame end as they were.  Every element of the page
    is a function of the frame its stage reads: the metrics and the BMI
    histogram read the Filter Engine's frame; the strength charts, the throw
    charts, the data explorer and the exporter read the sorted frame, whose
    rows are the Filter Engine's rows in the order of their names, each with
    its relative strength.  Where the largest squat count does not convert
    to an integer, the script stops in the overview and the store is as the
    Filter Engine left it. *)
Theorem C9_stages_and_frames (float_repr : Q -> string) (linesep : string)
    (csv : list Student) (S : list string) (C : string) :
  let view := apply_filters (load_data csv) S C in
  let frame := StrengthTable (sorted_frame view) in
  let before := filtered_state csv S C in
  run (bind (load csv) (fun df => filter_engine df S C))
    = (Returned (view_loc C), before) /\
  nth_error (heap before) 0%nat = Some (Table (load_data csv)) /\
  nth_error (heap before) (view_loc C) = Some (Table view) /\
  match py_int (Series.max (getitem LB_Squat_1min_reps (Table view))) with
  | Returned reps =>
      run (script float_repr linesep csv S C) =
        (Returned (List.length (heap before) + 1)%nat,
         mkState (heap before ++ [StrengthTable (with_strength view); frame])
           (overview_head (Table view) ++ overview_tail (Table view) reps
              ++ strength_page (sorted_frame view)
              ++ throw_page frame
              ++ explorer_page float_repr linesep frame))
  | Raised e =>
      run (script float_repr linesep csv S C) =
        (Raised e, mkState (heap before) (overview_head (Table view)))
  end /\
  Permutation (object_rows frame) view /\
  Sorted name_le (sorted_frame view) /\
  (forall r, In r (sorted_frame view) ->
             Rel_Strength_perKg r =
               truediv (UB_Strength_kg (student (row r)))
                       (Weight_kg (student (row r)))).
Proof.
  intros view frame before.
  destruct (load_filter_run csv S C) as [L [V T]].
  split; [exact L|]. split; [exact T|]. split; [exact V|].
  split; [|split; [apply sorted_frame_rows | split;
                   [apply sorted_frame_sorted | apply sorted_frame_strength]]].
  exact (script_outcome float_repr linesep csv S C).
Qed.

(** C9 as the claim has it fails in the sample table with every student
    selected and no category: the Filter Engine's frame has the names in the
    order Zoe, Adam, Mia and the loaded columns, and the frame the throw
    charts, the data explorer and the exporter read has the names in the
    order Adam, Mia, Zoe and one column more; the elements those stages put
    on the page are not the ones they would make of the Filter Engine's
    frame. *)
Lemma C9_counterexample :
  let view := apply_filters (load_data sample_csv) sample_names "All" in
  exists (l : loc) (s : state) (frame : object) (shown : list element),
    run (script sample_repr posix_linesep sample_csv sample_names "All")
      = (Returned l, s) /\
    nth_error (heap s) l = Some frame /\
    page s = shown ++ throw_page frame
               ++ explorer_page sample_repr posix_linesep frame /\
    getitem Name (Table view) = ["Zoe"; "Adam"; "Mia"]%string /\
    getitem Name frame = ["Adam"; "Mia"; "Zoe"]%string /\
    object_columns frame = object_columns (Table view) ++ ["Rel_Strength_perKg"%string] /\
    frame <> Table view /\
    throw_page frame <> throw_page (Table view) /\
    explorer_page sample_repr posix_linesep frame
      <> explorer_page sample_repr posix_linesep (Table view).
Proof.
  intros view.
  pose proof (script_outcome sample_repr posix_linesep sample_csv
                sample_names "All") as R.
  cbv zeta in R. fold view in R.
  change (py_int (Series.max (getitem LB_Squat_1min_reps (Table view))))
    with (Returned (A := Z) 8%Z) in R. cbv iota in R.
  eexists _, _, (StrengthTable (sorted_frame view)),
    (overview_head (Table view) ++ overview_tail (Table view) 8
       ++ strength_page (sorted_frame view)).
  split; [exact R|].
  split; [reflexivity|].
  split; [cbn [page]; rewrite <- !app_assoc; reflexivity|].
  split; [reflexivity|].
  split; [reflexivity|].
  split; [reflexivity|].
  split; [discriminate|].
  split.
  - intros E. apply (f_equal (fun p => match p with
                                       | plotly_chart (scatter_pair _ _ y _) :: _ => y
                                       | _ => []
                                       end)) in E.
    vm_compute in E. discriminate E.
  - intros E. apply (f_equal (fun p => match p with
                                       | dataframe header _ :: _ => List.length header
                                       | _ => O
                                       end)) in E.
    vm_compute in E. discriminate E.
Qed.

(** ** The exporter *)

Lemma csv_rows_length (float_repr : Q -> string) (frame : list StrengthRow) :
  List.length (csv_rows float_repr frame) = S (List.length frame).
Proof. unfold csv_rows. simpl. rewrite length_map. reflexivity. Qed.

Lemma csv_rows_width (float_repr : Q -> string) (frame : list StrengthRow)
    (fields : list string) :
  In fields (csv_rows float_repr frame) -> List.length fields = 13%nat.
Proof.
  unfold csv_rows. intros [<-|H]; [reflexivity|].
  apply in_map_iff in H. destruct H as [r [<- _]]. reflexivity.
Qed.

(** C4, as the code has it.  Whenever the overview does not raise, the last
    element of the page is the download of the exporter's bytes, and these
    are the UTF-8 bytes of the text in which the writer has written, one
    after the other, the header row and then one row per record of the
    frame the strength tab left.  The header is the loaded table's columns
    in their order followed by [Rel_Strength_perKg]; the row of a record is
    the texts of its thirteen cells in the order of the header; and the
    frame holds the records of the filtered view, in the order of the
    names. *)
Theorem C4_export_layout (float_repr : Q -> string) (linesep : string)
    (csv : list Student) (S : list string) (C : string) (reps : Z) :
  let view := apply_filters (load_data csv) S C in
  let frame := sorted_frame view in
  py_int (Series.max (getitem LB_Squat_1min_reps (Table view))) = Returned reps ->
  (exists shown,
     page (snd (run (script float_repr linesep csv S C))) =
       shown ++
       [download_button
          (encode_utf8
             (fold_right (fun fields out => writerow linesep fields ++ out)%string
                EmptyString
                ((columns (R := Row) ++ ["Rel_Strength_perKg"%string])
                   :: map (fun r => map (cell_text float_repr)
                                      (cells (row r) ++ [Number (Rel_Strength_perKg r)]))
                          frame)))
          "movement_lab_filtered_data.csv" "text/csv"]) /\
  csv_rows float_repr frame =
    (columns (R := Row) ++ ["Rel_Strength_perKg"%string])
      :: map (fun r => map (cell_text float_repr)
                         (cells (row r) ++ [Number (Rel_Strength_perKg r)]))
             frame /\
  List.length (csv_rows float_repr frame) = Datatypes.S (List.length view) /\
  (forall fields, In fields (csv_rows float_repr frame) ->
                  List.length fields = 13%nat) /\
  Permutation (map row frame) view /\
  Sorted name_le frame.
Proof.
  intros view frame R.
  pose proof (script_outcome float_repr linesep csv S C) as O.
  cbv zeta in O. fold view in O. rewrite R in O.
  repeat split.
  - rewrite O. cbn [snd page].
    eexists. unfold explorer_page.
    change [?a; ?b] with ([a] ++ [b]). rewrite !app_assoc. reflexivity.
  - rewrite csv_rows_length. unfold frame. rewrite sorted_frame_length. reflexivity.
  - apply csv_rows_width.
  - apply sorted_frame_rows.
  - apply sorted_frame_sorted.
Qed.

Lemma C4_witness :
  py_int (Series.max (getitem LB_Squat_1min_reps
            (Table (apply_filters (load_data sample_csv) sample_names "All"))))
    = Returned 8%Z /\
  List.length (csv_rows sample_repr
                 (sorted_frame (apply_filters (load_data sample_csv) sample_names "All")))
    = 4%nat.
Proof.
  split; [reflexivity|].
  exact (proj1 (proj2 (proj2
           (C4_export_layout sample_repr posix_linesep sample_csv sample_names "All"
              8%Z eq_refl)))).
Defined.

(** C4 as the claim has it fails in the sample table with every student
    selected and no category: the header of the export is not the list of
    the loaded table's columns, it has [Rel_Strength_perKg] after them; and
    the records are in the order Adam, Mia, Zoe of their names, not in the
    order Zoe, Adam, Mia of the view. *)
Lemma C4_counterexample :
  let view := apply_filters (load_data sample_csv) sample_names "All" in
  exists (shown : list element) (frame : list StrengthRow),
    page (snd (run (script sample_repr posix_linesep sample_csv sample_names "All")))
      = shown ++ [download_button (convert_df_to_csv sample_repr posix_linesep frame)
                    "movement_lab_filtered_data.csv" "text/csv"] /\
    hd [] (csv_rows sample_repr frame) <> columns (R := Row) /\
    csv_rows sample_repr frame =
      [["Name"; "Height_cm"; "Weight_kg"; "BMI"; "Rel_Grip_perKg";
        "UB_Strength_kg"; "LB_Squat_1min_reps"; "Flexibility_cm";
        "MB_OH_Best_m"; "MB_OH_Mean_m"; "MB_OH_Trials"; "BMI_Category";
        "Rel_Strength_perKg"];
       ["Adam"; "150.0"; "38.0"; "17.0"; "0.4"; "19.0"; ""; "9.0"; "5.0";
        "4.5"; "2.0"; "Underweight"; "0.5"];
       ["Mia"; "158.0"; "70.0"; "28.0"; "0.3"; "28.0"; "8.0"; ""; "4.0";
        "4.0"; "3.0"; "Overweight"; "0.4"];
       ["Zoe"; "165.0"; "60.0"; "22.0"; "0.5"; "30.0"; "5.0"; "12.0"; "6.0";
        "5.5"; "3.0"; "Normal"; "0.5"]]%string /\
    map row_name view = ["Zoe"; "Adam"; "Mia"]%string /\
    convert_df_to_csv sample_repr posix_linesep frame
      <> convert_df_to_csv sample_repr posix_linesep view.
Proof.
  intros view.
  pose proof (script_outcome sample_repr posix_linesep sample_csv
                sample_names "All") as R.
  cbv zeta in R. fold view in R.
  change (py_int (Series.max (getitem LB_Squat_1min_reps (Table view))))
    with (Returned (A := Z) 8%Z) in R. cbv iota in R.
  eexists _, (sorted_frame view).
  split.
  { rewrite R. cbn [snd page]. unfold explorer_page.
    change [?a; ?b] with ([a] ++ [b]). rewrite !app_assoc. reflexivity. }
  split.
  { intros E. apply (f_equal (@List.length string)) in E.
    vm_compute in E. discriminate E. }
  split; [vm_compute; reflexivity|].
  split; [reflexivity|].
  intros E. apply (f_equal (@List.length Byte.byte)) in E.
  vm_compute in E. discriminate E.
Qed.

(** ** The writer's inverse *)

Section Strings.

Local Open Scope string_scope.

Lemma append_empty (s : string) : s ++ "" = s.
Proof. induction s as [|c s IH]; simpl; [reflexivity | rewrite IH; reflexivity]. Qed.

Lemma append_append (a b c : string) : (a ++ b) ++ c = a ++ (b ++ c).
Proof. induction a as [|x a IH]; simpl; [reflexivity | rewrite IH; reflexivity]. Qed.

Lemma starts_with_append (p s : string) : starts_with p (p ++ s) = true.
Proof.
  induction p as [|c p IH]; simpl; [reflexivity|].
  rewrite Ascii.eqb_refl, IH. reflexivity.
Qed.

Lemma starts_with_other (c : ascii) (p rest : string) :
  p <> "" -> contains c p = false -> starts_with p (String c rest) = false.
Proof.
  destruct p as [|a p]; [congruence|]. simpl. intros _ H.
  apply orb_false_iff in H. destruct H as [H _].
  rewrite Ascii.eqb_sym, H. reflexivity.
Qed.

End Strings.

Section RoundTrip.

Variable linesep : string.

Hypothesis good : good_linesep linesep = true.

Local Open Scope string_scope.

Local Arguments Ascii.eqb : simpl never.

(** The line terminator, by its first character. *)
Lemma linesep_first :
  exists c0 l, linesep = String c0 l /\
               Ascii.eqb c0 delimiter = false /\ Ascii.eqb c0 quotechar = false.
Proof.
  unfold good_linesep in good.
  apply andb_true_iff in good. destruct good as [G Q].
  apply andb_true_iff in G. destruct G as [N D].
  destruct linesep as [|c0 l]; [discriminate|].
  exists c0, l. split; [reflexivity|].
  apply negb_true_iff in D, Q. cbn [contains] in D, Q.
  apply orb_false_iff in D, Q. destruct D as [D _], Q as [Q _].
  rewrite Ascii.eqb_sym, D, Ascii.eqb_sym, Q. split; reflexivity.
Qed.

Lemma linesep_not_empty : linesep <> "".
Proof. destruct linesep_first as [c0 [l [E _]]]. rewrite E. discriminate. Qed.

Lemma tok_skip (s : string) (rows : list (list string)) (rest : string) :
  tokenize linesep (mode_after (String.length s)) "" [] rows (s ++ rest) = tokenize linesep AtField "" [] rows rest.
Proof.
  induction s as [|c s IH]; [reflexivity|]. simpl. exact IH.
Qed.

(** What stands at the end of a row: a character that is neither the
    delimiter nor the quote character, at which the line terminator starts;
    past the terminator the reader is at the start of the next row. *)
Lemma at_linesep (rest : string) :
  exists c0 tail,
    linesep ++ rest = String c0 tail /\
    Ascii.eqb c0 delimiter = false /\
    Ascii.eqb c0 quotechar = false /\
    starts_with linesep (String c0 tail) = true /\
    forall rows, tokenize linesep (line_end linesep) "" [] rows tail
                 = tokenize linesep AtField "" [] rows rest.
Proof.
  destruct linesep_first as [c0 [l [E [D Q]]]].
  exists c0, (l ++ rest).
  split; [rewrite E; reflexivity|].
  split; [exact D|]. split; [exact Q|].
  split.
  - change (String c0 (l ++ rest)) with (String c0 l ++ rest).
    rewrite <- E. apply starts_with_append.
  - intros rows. unfold line_end.
    replace (String.length linesep - 1)%nat with (String.length l)
      by (rewrite E; simpl; lia).
    apply tok_skip.
Qed.

Lemma tok_plain (f acc : string) (fields : list string)
    (rows : list (list string)) (rest : string) :
  needs_quoting linesep f = false ->
  tokenize linesep Plain acc fields rows (f ++ rest) = tokenize linesep Plain (acc ++ f) fields rows rest.
Proof.
  revert acc. induction f as [|c f IH]; intros acc N; simpl.
  - rewrite append_empty. reflexivity.
  - simpl in N. apply orb_false_iff in N. destruct N as [Sp N].
    unfold special in Sp. apply orb_false_iff in Sp. destruct Sp as [Sp L].
    apply orb_false_iff in Sp. destruct Sp as [D _].
    rewrite D, (starts_with_other c linesep _ linesep_not_empty L).
    rewrite (IH _ N), append_append. reflexivity.
Qed.

Lemma tok_quoted (f acc : string) (fields : list string)
    (rows : list (list string)) (rest : string) :
  tokenize linesep Quoted acc fields rows (double_quotes f ++ String quotechar rest)
    = tokenize linesep QuoteSeen (acc ++ f) fields rows rest.
Proof.
  revert acc. induction f as [|c f IH]; intros acc; simpl.
  - rewrite append_empty. reflexivity.
  - destruct (Ascii.eqb c quotechar) eqn:E; cbn [append tokenize].
    + rewrite E, IH, append_append. reflexivity.
    + rewrite E, IH, append_append. reflexivity.
Qed.

Lemma field_then_delimiter (f : string) (fields : list string)
    (rows : list (list string)) (rest : string) :
  tokenize linesep AtField "" fields rows (write_field linesep f ++ String delimiter rest)
    = tokenize linesep AtField "" (f :: fields) rows rest.
Proof.
  unfold write_field. destruct (needs_quoting linesep f) eqn:N.
  - simpl. rewrite append_append. simpl.
    rewrite tok_quoted. reflexivity.
  - destruct f as [|c f]; [reflexivity|].
    pose proof N as N'. simpl in N'. apply orb_false_iff in N'. destruct N' as [Sp N'].
    unfold special in Sp. apply orb_false_iff in Sp. destruct Sp as [Sp L].
    apply orb_false_iff in Sp. destruct Sp as [D Q].
    simpl. rewrite Q, D, (starts_with_other c linesep _ linesep_not_empty L).
    rewrite (tok_plain f _ _ _ _ N'). reflexivity.
Qed.

Lemma field_then_linesep (f : string) (fields : list string)
    (rows : list (list string)) (rest : string) :
  (f = "" -> fields <> []) ->
  tokenize linesep AtField "" fields rows (write_field linesep f ++ linesep ++ rest)
    = tokenize linesep AtField "" [] (rev (f :: fields) :: rows) rest.
Proof.
  intros NE.
  destruct (at_linesep rest) as [c0 [tail [E [D0 [Q0 [SW LE]]]]]].
  rewrite E.
  unfold write_field. destruct (needs_quoting linesep f) eqn:N.
  - simpl. rewrite append_append. simpl. rewrite tok_quoted.
    cbn [tokenize]. rewrite Q0, D0, SW. apply LE.
  - destruct f as [|c f].
    + cbn [append tokenize]. rewrite Q0, D0, SW.
      destruct fields as [|g fields]; [exfalso; apply NE; reflexivity|].
      apply LE.
    + pose proof N as N'. simpl in N'. apply orb_false_iff in N'. destruct N' as [Sp N'].
      unfold special in Sp. apply orb_false_iff in Sp. destruct Sp as [Sp L].
      apply orb_false_iff in Sp. destruct Sp as [D Q].
      simpl. rewrite Q, D, (starts_with_other c linesep _ linesep_not_empty L).
      rewrite (tok_plain f _ _ _ _ N').
      cbn [tokenize]. rewrite D0, SW. apply LE.
Qed.

(** The fields of a row, after the fields [done] of the same row. *)
Lemma fields_then_linesep (fs done : list string) (rows : list (list string))
    (rest : string) :
  fs <> [] -> (done = [] -> fs <> [""]) ->
  tokenize linesep AtField "" done rows
    (String.concat (String delimiter "") (map (write_field linesep) fs)
       ++ linesep ++ rest)
    = tokenize linesep AtField "" [] ((rev done ++ fs)%list :: rows) rest.
Proof.
  revert done. induction fs as [|f fs IH]; intros done NE One; [congruence|].
  destruct fs as [|g fs].
  - cbn [map String.concat].
    rewrite field_then_linesep; [reflexivity|].
    intros ->. destruct done; [exfalso; apply One; reflexivity | discriminate].
  - change (String.concat (String delimiter "") (map (write_field linesep) (f :: g :: fs)))
      with (write_field linesep f
              ++ String delimiter ""
              ++ String.concat (String delimiter "") (map (write_field linesep) (g :: fs))).
    rewrite !append_append. cbn [append].
    rewrite field_then_delimiter.
    rewrite IH; [|discriminate|discriminate].
    cbn [rev]. rewrite <- app_assoc. reflexivity.
Qed.

Lemma writerow_read (fs : list string) (rows : list (list string)) (rest : string) :
  tokenize linesep AtField "" [] rows (writerow linesep fs ++ rest)
    = tokenize linesep AtField "" [] (fs :: rows) rest.
Proof.
  destruct (at_linesep rest) as [c0 [tail [E [D0 [Q0 [SW LE]]]]]].
  assert (General : fs <> [] -> fs <> [""] ->
            tokenize linesep AtField "" [] rows
              ((String.concat (String delimiter "") (map (write_field linesep) fs)
                  ++ linesep) ++ rest)
            = tokenize linesep AtField "" [] (fs :: rows) rest).
  { intros N1 N2. rewrite append_append.
    rewrite fields_then_linesep; [reflexivity | exact N1 | intros _; exact N2]. }
  assert (Plain_row : fs <> [""] ->
            writerow linesep fs
            = String.concat (String delimiter "") (map (write_field linesep) fs)
                ++ linesep).
  { destruct fs as [|[|c f] [|g fs]]; intros N; try reflexivity.
    exfalso. apply N. reflexivity. }
  destruct fs as [|f fs].
  - cbn [writerow map String.concat append]. rewrite E.
    cbn [tokenize]. rewrite Q0, D0, SW. apply LE.
  - destruct (list_eq_dec string_dec (f :: fs) [""]) as [One|Many].
    + rewrite One. cbn [writerow append]. rewrite E. cbn [tokenize].
      rewrite Ascii.eqb_refl. cbn [tokenize]. rewrite Q0, D0, SW. apply LE.
    + rewrite (Plain_row Many). apply General; [discriminate | exact Many].
Qed.

(** The reader finds the rows the writer was given. *)
Lemma written_rows_read (written rows : list (list string)) :
  tokenize linesep AtField "" [] rows
    (fold_right (fun fields out => writerow linesep fields ++ out) "" written)
    = Some (rev rows ++ written)%list.
Proof.
  revert rows. induction written as [|fs written IH]; intros rows.
  - simpl. rewrite app_nil_r. reflexivity.
  - cbn [fold_right]. rewrite writerow_read, IH.
    cbn [rev]. rewrite <- app_assoc. reflexivity.
Qed.

End RoundTrip.

(** ** The reader of the export *)

Section CsvReader.

Variable linesep : string.

Hypothesis os : os_linesep linesep = true.

Local Open Scope string_scope.

Local Arguments Ascii.eqb : simpl never.

Lemma os_linesep_cases :
  linesep = String line_feed "" \/
  linesep = String carriage_return (String line_feed "").
Proof.
  unfold os_linesep in os. apply orb_true_iff in os.
  destruct os as [E|E]; apply String.eqb_eq in E; auto.
Qed.

(** A field that is written as it stands, on one line, has neither the
    delimiter nor a quote nor a line break at its head, and its tail is
    such a field. *)
Lemma plain_char (c : ascii) (f : string) :
  needs_quoting linesep (String c f) = false ->
  one_line_unless_quoted linesep (String c f) = true ->
  (Ascii.eqb c delimiter = false /\ Ascii.eqb c quotechar = false /\
   newline c = false) /\
  needs_quoting linesep f = false /\ one_line_unless_quoted linesep f = true.
Proof.
  unfold one_line_unless_quoted. intros N L. rewrite N in L. cbn [orb] in L.
  apply negb_true_iff, orb_false_iff in L. destruct L as [L1 L2].
  cbn [contains] in L1, L2. apply orb_false_iff in L1, L2.
  destruct L1 as [C1 L1], L2 as [C2 L2].
  cbn [needs_quoting] in N. apply orb_false_iff in N. destruct N as [Sp N].
  unfold special in Sp. apply orb_false_iff in Sp. destruct Sp as [Sp _].
  apply orb_false_iff in Sp. destruct Sp as [D Q].
  repeat split; try assumption.
  - unfold newline. rewrite Ascii.eqb_sym, C1, Ascii.eqb_sym, C2. reflexivity.
  - rewrite N, L1, L2. reflexivity.
Qed.

Lemma parse_plain (f acc : string) (fields : list string)
    (records : list (list string)) (rest : string) :
  needs_quoting linesep f = false ->
  one_line_unless_quoted linesep f = true ->
  parse (mkReader InField acc fields records) (f ++ rest)
    = parse (mkReader InField (acc ++ f) fields records) rest.
Proof.
  revert acc. induction f as [|c f IH]; intros acc N L.
  - rewrite append_empty. reflexivity.
  - destruct (plain_char c f N L) as [[D [Q NL]] [N' L']].
    cbn [append parse parse_char at_state the_field the_fields the_records].
    rewrite NL, D, (IH _ N' L'), append_append. reflexivity.
Qed.

Lemma parse_quoted (f acc : string) (fields : list string)
    (records : list (list string)) (rest : string) :
  parse (mkReader InQuotedField acc fields records)
    (double_quotes f ++ String quotechar rest)
    = parse (mkReader QuoteInQuotedField (acc ++ f) fields records) rest.
Proof.
  revert acc. induction f as [|c f IH]; intros acc.
  - rewrite append_empty.
    cbn [double_quotes append parse parse_char at_state the_field the_fields
         the_records].
    rewrite Ascii.eqb_refl. reflexivity.
  - cbn [double_quotes]. destruct (Ascii.eqb c quotechar) eqn:E;
      cbn [append parse parse_char at_state the_field the_fields the_records].
    + rewrite E. cbn [parse parse_char at_state the_field the_fields the_records].
      rewrite E, IH, append_append. reflexivity.
    + rewrite E, IH, append_append. reflexivity.
Qed.

(** The reader behind the line terminator, from inside a record... *)
Lemma record_ends (quoted : bool) (f : string) (fields : list string)
    (records : list (list string)) (rest : string) :
  parse (mkReader (if quoted then QuoteInQuotedField else InField) f fields records)
    (linesep ++ rest)
    = parse (mkReader StartField "" [] (rev (f :: fields) :: records)) rest.
Proof.
  destruct os_linesep_cases as [-> | ->]; destruct quoted; reflexivity.
Qed.

(** ... and from the start of a field. *)
Lemma record_ends_at_start (fields : list string) (records : list (list string))
    (rest : string) :
  parse (mkReader StartField "" fields records) (linesep ++ rest)
    = parse (mkReader StartField "" []
               (rev (match fields with
                     | [] => []
                     | _ => "" :: fields
                     end) :: records)) rest.
Proof.
  destruct os_linesep_cases as [-> | ->]; reflexivity.
Qed.

(** The reader behind a written field, at the character [c] behind it. *)
Lemma written_field_read (f : string) (fields : list string)
    (records : list (list string)) (rest : string) :
  one_line_unless_quoted linesep f = true ->
  f <> "" \/ needs_quoting linesep f = true ->
  exists quoted : bool,
    parse (mkReader StartField "" fields records) (write_field linesep f ++ rest)
    = parse (mkReader (if quoted then QuoteInQuotedField else InField) f fields records)
        rest.
Proof.
  intros L NE. unfold write_field. destruct (needs_quoting linesep f) eqn:N.
  - exists true.
    cbn [append parse parse_char at_state the_field the_fields the_records].
    rewrite append_append. cbn [append].
    change (start_field quotechar fields records)
      with (mkReader InQuotedField "" fields records).
    apply parse_quoted.
  - exists false. destruct f as [|c f]; [destruct NE; congruence|].
    destruct (plain_char c f N L) as [[D [Q NL]] [N' L']].
    cbn [append parse parse_char at_state the_field the_fields the_records].
    unfold start_field. rewrite NL, Q, D.
    apply (parse_plain f (String c "") fields records rest N' L').
Qed.

Lemma field_then_delimiter_read (f : string) (fields : list string)
    (records : list (list string)) (rest : string) :
  one_line_unless_quoted linesep f = true ->
  parse (mkReader StartField "" fields records)
    (write_field linesep f ++ String delimiter rest)
    = parse (mkReader StartField "" (f :: fields) records) rest.
Proof.
  intros L.
  destruct (string_dec f "") as [->|NE].
  - reflexivity.
  - destruct (written_field_read f fields records (String delimiter rest) L
                (or_introl NE)) as [[] ->]; reflexivity.
Qed.

Lemma field_then_linesep_read (f : string) (fields : list string)
    (records : list (list string)) (rest : string) :
  one_line_unless_quoted linesep f = true ->
  (f = "" -> fields <> []) ->
  parse (mkReader StartField "" fields records)
    (write_field linesep f ++ linesep ++ rest)
    = parse (mkReader StartField "" [] (rev (f :: fields) :: records)) rest.
Proof.
  intros L NE.
  destruct (string_dec f "") as [->|NF].
  - change (write_field linesep "" ++ linesep ++ rest) with (linesep ++ rest).
    rewrite record_ends_at_start.
    destruct fields; [exfalso; apply NE; reflexivity | reflexivity].
  - destruct (written_field_read f fields records (linesep ++ rest) L
                (or_introl NF)) as [quoted ->].
    apply record_ends.
Qed.

(** The fields of a record, behind the fields [done] of the same record. *)
Lemma fields_then_linesep_read (fs done : list string)
    (records : list (list string)) (rest : string) :
  forallb (one_line_unless_quoted linesep) fs = true ->
  fs <> [] -> (done = [] -> fs <> [""]) ->
  parse (mkReader StartField "" done records)
    (String.concat (String delimiter "") (map (write_field linesep) fs)
       ++ linesep ++ rest)
    = parse (mkReader StartField "" [] ((rev done ++ fs)%list :: records)) rest.
Proof.
  revert done. induction fs as [|f fs IH]; intros done L NE One; [congruence|].
  cbn [forallb] in L. apply andb_true_iff in L. destruct L as [Lf L].
  destruct fs as [|g fs].
  - cbn [map String.concat].
    rewrite field_then_linesep_read; [reflexivity | exact Lf |].
    intros ->. destruct done; [exfalso; apply One; reflexivity | discriminate].
  - change (String.concat (String delimiter "") (map (write_field linesep) (f :: g :: fs)))
      with (write_field linesep f
              ++ String delimiter ""
              ++ String.concat (String delimiter "") (map (write_field linesep) (g :: fs))).
    rewrite !append_append. cbn [append].
    rewrite (field_then_delimiter_read f _ _ _ Lf).
    rewrite IH; [|exact L|discriminate|discriminate].
    cbn [rev]. rewrite <- app_assoc. reflexivity.
Qed.

Lemma writerow_record (fs : list string) (records : list (list string))
    (rest : string) :
  forallb (one_line_unless_quoted linesep) fs = true ->
  parse (mkReader StartField "" [] records) (writerow linesep fs ++ rest)
    = parse (mkReader StartField "" [] (fs :: records)) rest.
Proof.
  intros L.
  assert (Plain_row : fs <> [""] ->
            writerow linesep fs
            = String.concat (String delimiter "") (map (write_field linesep) fs)
                ++ linesep).
  { destruct fs as [|[|c f] [|g fs]]; intros N; try reflexivity.
    exfalso. apply N. reflexivity. }
  destruct fs as [|f fs].
  - cbn [writerow map String.concat append]. apply record_ends_at_start.
  - destruct (list_eq_dec string_dec (f :: fs) [""]) as [One|Many].
    + rewrite One. cbn [writerow append parse parse_char at_state the_field
                        the_fields the_records].
      change (parse_char (start_field quotechar [] records) quotechar)
        with (mkReader QuoteInQuotedField "" [] records).
      apply (record_ends true).
    + rewrite (Plain_row Many), append_append.
      rewrite fields_then_linesep_read;
        [reflexivity | exact L | discriminate | intros _; exact Many].
Qed.

(** The reader finds the records the writer was given. *)
Lemma written_records_read (written records : list (list string)) :
  forallb (forallb (one_line_unless_quoted linesep)) written = true ->
  parse (mkReader StartField "" [] records)
    (fold_right (fun fields out => writerow linesep fields ++ out) "" written)
    = (rev records ++ written)%list.
Proof.
  revert records. induction written as [|fs written IH]; intros records L.
  - cbn. rewrite app_nil_r. reflexivity.
  - cbn [forallb] in L. apply andb_true_iff in L. destruct L as [Lf L].
    cbn [fold_right]. rewrite (writerow_record _ _ _ Lf), (IH _ L).
    cbn [rev]. rewrite <- app_assoc. reflexivity.
Qed.

(** A text without line breaks is on one line. *)
Lemma one_line_plain (f : string) :
  contains carriage_return f || contains line_feed f = false ->
  one_line_unless_quoted linesep f = true.
Proof. unfold one_line_unless_quoted. intros ->. apply orb_true_r. Qed.

End CsvReader.

(** ** Reading the export back *)

Lemma forallb_map_rows {A B} (f : A -> B) (p : B -> bool) (l : list A) :
  forallb p (map f l) = forallb (fun x => p (f x)) l.
Proof.
  induction l as [|x l IH]; [reflexivity|]. cbn [map forallb]. rewrite IH. reflexivity.
Qed.

Section RoundTripRecords.

Variable float_read : string -> option Q.
Variable float_repr : Q -> string.
Variable linesep : string.

Local Open Scope string_scope.

Lemma number_back (x : float) :
  number_text float_read float_repr (Number x) = true ->
  exists y, read_number float_read (cell_text float_repr (Number x)) = Some y /\
            read_as float_read float_repr x y.
Proof.
  destruct x as [| [] | q]; cbn [cell_text number_text read_as]; intros B.
  - exists NaN. split; reflexivity.
  - exists (Inf true). split; reflexivity.
  - exists (Inf false). split; reflexivity.
  - repeat (apply andb_true_iff in B; destruct B as [B ?]).
    unfold read_number.
    repeat match goal with
           | H : negb _ = true |- _ => apply negb_true_iff in H; rewrite H
           end.
    destruct (float_read (float_repr q)) as [q'|]; [|discriminate].
    exists (Fin q'). split; [reflexivity|].
    exists q'. split; reflexivity.
Qed.

Lemma numbers_back (xs : list float) :
  forallb (number_text float_read float_repr) (map Number xs) = true ->
  exists ys,
    read_all (read_number float_read)
      (map (fun x => cell_text float_repr (Number x)) xs) = Some ys /\
    Forall2 (read_as float_read float_repr) xs ys.
Proof.
  induction xs as [|x xs IH]; intros B.
  - exists []. split; [reflexivity | constructor].
  - cbn [map forallb] in B. apply andb_true_iff in B. destruct B as [B1 B2].
    destruct (number_back x B1) as [y [E1 R1]].
    destruct (IH B2) as [ys [E2 R2]].
    exists (y :: ys). cbn [map read_all]. rewrite E1, E2.
    split; [reflexivity | constructor; assumption].
Qed.

Lemma category_back (c : option BMICategory) :
  read_category (cell_text float_repr (Label c)) = Some c.
Proof. destruct c as [[]|]; reflexivity. Qed.

Lemma Student_back (s : Student) :
  forallb (number_text float_read float_repr) (Student_cells s) = true ->
  exists s', read_Student float_read (map (cell_text float_repr) (Student_cells s))
               = Some s' /\
             Student_read_as float_read float_repr s s'.
Proof.
  destruct s as [name h w b g u q f best mean trials].
  intros B.
  destruct (numbers_back [h; w; b; g; u; q; f; best; mean; trials] B)
    as [ys [E R]].
  repeat match goal with
         | H : Forall2 _ (_ :: _) _ |- _ => inversion H; subst; clear H
         | H : Forall2 _ [] _ |- _ => inversion H; subst; clear H
         end.
  eexists.
  change (map (cell_text float_repr)
            (Student_cells (mkStudent name h w b g u q f best mean trials)))
    with (name :: map (fun x => cell_text float_repr (Number x))
                    [h; w; b; g; u; q; f; best; mean; trials]).
  cbn [read_Student]. rewrite E.
  split; [reflexivity|].
  unfold Student_read_as.
  cbn [Name Height_cm Weight_kg BMI Rel_Grip_perKg UB_Strength_kg
       LB_Squat_1min_reps Flexibility_cm MB_OH_Best_m MB_OH_Mean_m MB_OH_Trials].
  repeat split; assumption.
Qed.

Lemma Row_back (r : Row) :
  forallb (number_text float_read float_repr) (cells r) = true ->
  exists r', read_Row float_read (map (cell_text float_repr) (cells r)) = Some r' /\
             Row_read_as float_read float_repr r r'.
Proof.
  destruct r as [s c]. cbn [cells Row_Tabular student BMI_Category].
  rewrite forallb_app. intros B. apply andb_true_iff in B. destruct B as [B _].
  destruct (Student_back s B) as [s' [E R]].
  exists (mkRow s' c).
  assert (F : firstn (List.length Student_columns)
                (map (cell_text float_repr) (Student_cells s ++ [Label c]))
              = map (cell_text float_repr) (Student_cells s))
    by (destruct s; reflexivity).
  assert (K : skipn (List.length Student_columns)
                (map (cell_text float_repr) (Student_cells s ++ [Label c]))
              = [cell_text float_repr (Label c)])
    by (destruct s; reflexivity).
  unfold read_Row. rewrite F, K, E, category_back.
  split; [reflexivity|]. split; [exact R | reflexivity].
Qed.

Lemma StrengthRow_back (r : StrengthRow) :
  forallb (number_text float_read float_repr) (cells r) = true ->
  exists r', read_StrengthRow float_read (map (cell_text float_repr) (cells r))
               = Some r' /\
             StrengthRow_read_as float_read float_repr r r'.
Proof.
  destruct r as [r x]. cbn [cells StrengthRow_Tabular row Rel_Strength_perKg].
  rewrite forallb_app. intros B. apply andb_true_iff in B. destruct B as [B Bx].
  cbn [forallb] in Bx. apply andb_true_iff in Bx. destruct Bx as [Bx _].
  destruct (Row_back r B) as [r' [E R]].
  destruct (number_back x Bx) as [y [Ey Ry]].
  exists (mkStrengthRow r' y).
  assert (F : firstn (List.length (columns (R := Row)))
                (map (cell_text float_repr) (cells r ++ [Number x]))
              = map (cell_text float_repr) (cells r))
    by (destruct r as [[] ?]; reflexivity).
  assert (K : skipn (List.length (columns (R := Row)))
                (map (cell_text float_repr) (cells r ++ [Number x]))
              = [cell_text float_repr (Number x)])
    by (destruct r as [[] ?]; reflexivity).
  unfold read_StrengthRow. rewrite F, K, E, Ey.
  split; [reflexivity|]. split; assumption.
Qed.

Lemma rows_back {R R'} `{Tabular R} (read : list string -> option R')
    (came_back : R -> R' -> Prop) (df : list R) :
  (forall r, forallb (number_text float_read float_repr) (cells r) = true ->
             exists r', read (map (cell_text float_repr) (cells r)) = Some r' /\
                        came_back r r') ->
  forallb (forallb (number_text float_read float_repr)) (map cells df) = true ->
  exists df',
    read_all read (map (fun r => map (cell_text float_repr) (cells r)) df) = Some df' /\
    Forall2 came_back df df'.
Proof.
  intros Back. induction df as [|r df IH]; intros B.
  - exists []. split; [reflexivity | constructor].
  - cbn [map forallb] in B. apply andb_true_iff in B. destruct B as [B1 B2].
    destruct (Back r B1) as [r' [E1 R1]].
    destruct (IH B2) as [df' [E2 R2]].
    exists (r' :: df'). cbn [map read_all]. rewrite E1, E2.
    split; [reflexivity | constructor; assumption].
Qed.

(** The header of either shape is on one line, and so is every row whose
    cells are. *)
Lemma csv_rows_one_line {R} `{Tabular R} (df : list R) :
  contains_line_break columns = false ->
  forallb (forallb (written_on_one_line float_repr linesep)) (map cells df) = true ->
  forallb (forallb (one_line_unless_quoted linesep)) (csv_rows float_repr df) = true.
Proof.
  intros Hd B. unfold csv_rows. cbn [forallb]. apply andb_true_iff. split.
  - revert Hd. generalize (columns (R := R)). intros cs.
    induction cs as [|c cs IH]; intros Hd; [reflexivity|].
    cbn [contains_line_break existsb] in Hd. apply orb_false_iff in Hd.
    destruct Hd as [Hc Hd]. cbn [forallb].
    rewrite (one_line_plain linesep c Hc). apply IH, Hd.
  - induction df as [|r df IH]; [reflexivity|].
    cbn [map forallb] in B |- *. apply andb_true_iff in B. destruct B as [B1 B2].
    rewrite forallb_map_rows, (IH B2). unfold written_on_one_line in B1.
    rewrite B1. reflexivity.
Qed.


End RoundTripRecords.


(** * Further properties of the code *)

(** ** The loader *)

(** X1: [load_data] adds the category column and nothing else: the records
    of the loaded table are the records read, in their order, and the
    category of every row is the bucket of that row's BMI. *)
Theorem load_data_keeps_records (csv : list Student) :
  map student (load_data csv) = csv /\
  forall r, In r (load_data csv) -> BMI_Category r = cut (BMI (student r)).
Proof.
  rewrite load_data_map. split.
  - rewrite map_map. simpl. apply map_id.
  - intros r H. apply in_map_iff in H. destruct H as [s [<- _]]. reflexivity.
Qed.

(** X2: the bucketing is monotone: of two BMIs that both get a category, the
    larger one never gets a category with a smaller code. *)
Theorem cut_monotone (b b' : Q) (c c' : BMICategory) :
  (b <= b')%Q ->
  cut (Fin b) = Some c -> cut (Fin b') = Some c' ->
  (code c <= code c')%nat.
Proof.
  intros L. rewrite !cut_Fin.
  destruct (Qle_bool b 0) eqn:A0; [discriminate|].
  destruct (Qle_bool b' 0) eqn:B0; [discriminate|].
  destruct (Qle_bool b (37 # 2)) eqn:A1; destruct (Qle_bool b' (37 # 2)) eqn:B1;
  destruct (Qle_bool b 25) eqn:A2; destruct (Qle_bool b' 25) eqn:B2;
  destruct (Qle_bool b 30) eqn:A3; destruct (Qle_bool b' 30) eqn:B3;
  destruct (Qle_bool b 100) eqn:A4; destruct (Qle_bool b' 100) eqn:B4;
  intros E E'; try discriminate;
  injection E as <-; injection E' as <-; simpl; try lia;
  exfalso;
  repeat match goal with
    | H : Qle_bool _ _ = true |- _ => apply Qle_bool_iff in H
    | H : Qle_bool _ _ = false |- _ => apply Qle_bool_false in H
    end; lra.
Qed.

Lemma cut_monotone_witness :
  (22 <= 27)%Q /\ cut (Fin 22) = Some Normal /\ cut (Fin 27) = Some Overweight /\
  (code Normal <= code Overweight)%nat.
Proof.
  assert (L : (22 <= 27)%Q) by (unfold Qle; simpl; lia).
  split; [exact L|]. split; [reflexivity|]. split; [reflexivity|].
  exact (cut_monotone 22 27 Normal Overweight L eq_refl eq_refl).
Defined.

(** ** The options of the category selectbox *)

Lemma in_unique (c : BMICategory) (values : list BMICategory) :
  In c (unique values) <-> In c values.
Proof.
  induction values as [|v values IH]; simpl; [tauto|].
  rewrite filter_In, IH. split.
  - intros [H|[H _]]; auto.
  - intros [H|H]; [left; exact H|].
    destruct (BMICategory_eqb c v) eqn:E.
    + apply BMICategory_eqb_eq in E. left. symmetry. exact E.
    + right. split; [exact H | reflexivity].
Qed.

Lemma nodup_filter {A} (f : A -> bool) (l : list A) : NoDup l -> NoDup (filter f l).
Proof.
  induction 1 as [|x l N _ IH]; simpl; [constructor|].
  destruct (f x); [|exact IH].
  constructor; [|exact IH]. intros H. apply N. apply filter_In in H. tauto.
Qed.

Lemma nodup_unique (values : list BMICategory) : NoDup (unique values).
Proof.
  induction values as [|v values IH]; simpl; constructor.
  - intros H. apply filter_In in H. destruct H as [_ H].
    assert (E : BMICategory_eqb v v = true) by (apply BMICategory_eqb_eq; reflexivity).
    rewrite E in H. discriminate.
  - apply nodup_filter, IH.
Qed.

Lemma in_dropna (c : BMICategory) (series : list (option BMICategory)) :
  In c (dropna series) <-> In (Some c) series.
Proof.
  unfold dropna. rewrite in_flat_map. split.
  - intros [[l|] [H I]]; simpl in I; [|contradiction].
    destruct I as [<-|[]]. exact H.
  - intros H. exists (Some c). split; [exact H | left; reflexivity].
Qed.

Lemma label_not_All (c : BMICategory) : label_name c <> "All"%string.
Proof. destruct c; discriminate. Qed.

Lemma nodup_labels (values : list BMICategory) :
  NoDup values -> NoDup (map label_name values).
Proof.
  induction 1 as [|c values N _ IH]; simpl; constructor; [|exact IH].
  intros H. apply in_map_iff in H. destruct H as [c' [E H]].
  apply label_name_inj in E. subst c'. exact (N H).
Qed.

(** The labels offered are the labels of the rows. *)
Lemma offered_label (df : DataFrame) (c : BMICategory) :
  In (label_name c) (bmi_options df) <-> exists r, In r df /\ BMI_Category r = Some c.
Proof.
  unfold bmi_options. simpl. split.
  - intros [H|H]; [exfalso; exact (label_not_All c (eq_sym H))|].
    apply in_map_iff in H. destruct H as [c' [E H]].
    apply label_name_inj in E. subst c'.
    apply in_unique, in_dropna, in_map_iff in H.
    destruct H as [r [E H]]. exists r. split; assumption.
  - intros [r [H E]]. right. apply in_map. apply in_unique, in_dropna.
    rewrite <- E. apply in_map. exact H.
Qed.

Lemma offered_option (df : DataFrame) (s : string) :
  In s (bmi_options df) <->
  s = "All"%string \/
  exists r, In r df /\ option_map label_name (BMI_Category r) = Some s.
Proof.
  split.
  - intros H. destruct (string_dec s "All") as [E|N]; [left; exact E|right].
    destruct H as [H|H]; [congruence|].
    apply in_map_iff in H. destruct H as [c [<- H]].
    assert (O : In (label_name c) (bmi_options df)) by (right; apply in_map; exact H).
    apply offered_label in O. destruct O as [r [I E]].
    exists r. split; [exact I | rewrite E; reflexivity].
  - intros [->|[r [I E]]]; [left; reflexivity|].
    destruct (BMI_Category r) as [c|] eqn:B; [|discriminate].
    simpl in E. injection E as <-. apply offered_label. exists r. tauto.
Qed.

(** X3: the options of the category selectbox: "All" comes first; no option
    is offered twice; and besides "All" the options are exactly the labels
    of the categories that some row of the table carries (an absent category
    offers nothing). *)
Theorem bmi_options_exact (df : DataFrame) :
  hd_error (bmi_options df) = Some "All"%string /\
  NoDup (bmi_options df) /\
  forall s, In s (bmi_options df) <->
            s = "All"%string \/
            exists r, In r df /\ option_map label_name (BMI_Category r) = Some s.
Proof.
  split; [reflexivity|]. split.
  - unfold bmi_options. constructor.
    + intros H. apply in_map_iff in H. destruct H as [c [E _]].
      exact (label_not_All c E).
    + apply nodup_labels, nodup_unique.
  - apply offered_option.
Qed.

(** X4: every category the selectbox offers has students: with the default
    selection (every student) and an offered category other than "All", the
    filtered view is not empty, and all its rows carry that category. *)
Theorem offered_category_has_rows (df : DataFrame) (selected_bmi : string) :
  In selected_bmi (bmi_options df) ->
  selected_bmi <> "All"%string ->
  apply_filters df (student_names df) selected_bmi <> [] /\
  forall r, In r (apply_filters df (student_names df) selected_bmi) ->
            option_map label_name (BMI_Category r) = Some selected_bmi.
Proof.
  intros O N.
  apply offered_option in O.
  destruct O as [O|[r [I E]]]; [contradiction|].
  rewrite apply_filters_filter. split.
  - intros Em.
    assert (K : In r (filter (keeps (student_names df) selected_bmi) df)).
    { apply filter_In. split; [exact I|]. apply keeps_spec.
      split; [apply in_map; exact I | right; exact E]. }
    rewrite Em in K. exact K.
  - intros r' H. apply filter_In in H. destruct H as [_ H].
    apply keeps_spec in H. destruct H as [_ [H|H]]; [contradiction | exact H].
Qed.

Lemma offered_category_has_rows_witness :
  In "Normal"%string (bmi_options (load_data sample_csv)) /\
  "Normal"%string <> "All"%string /\
  apply_filters (load_data sample_csv) (student_names (load_data sample_csv)) "Normal"
    <> [].
Proof.
  assert (O : In "Normal"%string (bmi_options (load_data sample_csv)))
    by (vm_compute; tauto).
  assert (N : "Normal"%string <> "All"%string) by discriminate.
  split; [exact O|]. split; [exact N|].
  exact (proj1 (offered_category_has_rows (load_data sample_csv) "Normal" O N)).
Defined.

(** ** The Filter Engine *)

(** X5: a category argument that is neither "All" nor one of the four
    labels selects nothing and raises nothing; the sentinel is matched
    letter for letter, so "all" is such an argument. *)
Theorem unknown_category_selects_nothing (table : DataFrame) (S : list string)
    (C : string) :
  C <> "All"%string ->
  (forall c, label_name c <> C) ->
  apply_filters table S C = [].
Proof.
  intros N U. rewrite apply_filters_filter. apply filter_none.
  intros r _. destruct (keeps S C r) eqn:K; [|reflexivity].
  apply keeps_spec in K. destruct K as [_ [K|K]]; [contradiction|].
  destruct (BMI_Category r) as [c|]; [|discriminate].
  simpl in K. injection K as K. exfalso. exact (U c K).
Qed.

Lemma unknown_category_selects_nothing_witness :
  "all"%string <> "All"%string /\
  apply_filters (load_data sample_csv) sample_names "all" = [].
Proof.
  assert (N : "all"%string <> "All"%string) by discriminate.
  split; [exact N|].
  apply (unknown_category_selects_nothing _ _ _ N).
  intros c. destruct c; discriminate.
Defined.

Lemma length_filter_cons {A} (f : A -> bool) (x : A) (l : list A) :
  List.length (filter f (x :: l))
    = ((if f x then 1 else 0) + List.length (filter f l))%nat.
Proof. simpl. destruct (f x); reflexivity. Qed.

(** X6: for a fixed selection of students the category views split the
    "All" view: a row is in the view of a category exactly when it is in the
    "All" view and carries that category, so that the number of rows of the
    "All" view is the sum of the numbers of rows of the four category views
    and of the number of its rows without a category. *)
Theorem category_views_partition (table : DataFrame) (S : list string) :
  (forall r c, In r (apply_filters table S (label_name c)) <->
               In r (apply_filters table S "All") /\ BMI_Category r = Some c) /\
  List.length (apply_filters table S "All") =
    (List.length (apply_filters table S "Underweight")
     + List.length (apply_filters table S "Normal")
     + List.length (apply_filters table S "Overweight")
     + List.length (apply_filters table S "Obese")
     + List.length (filter uncategorised (apply_filters table S "All")))%nat.
Proof.
  split.
  - intros r c. rewrite !apply_filters_filter, !filter_In, !keeps_spec. split.
    + intros [I [N [A|L]]]; [exfalso; exact (label_not_All c A)|].
      destruct (BMI_Category r) as [c'|]; [|discriminate].
      simpl in L. injection L as L. apply label_name_inj in L. subst c'.
      repeat split; auto.
    + intros [[I [N _]] E]. rewrite E. repeat split; auto.
  - rewrite !apply_filters_filter, filter_twice.
    induction table as [|r table IH]; [reflexivity|].
    rewrite !length_filter_cons, IH.
    assert (H : ((if keeps S "All" r then 1 else 0) =
                 (if keeps S "Underweight" r then 1 else 0)
                 + (if keeps S "Normal" r then 1 else 0)
                 + (if keeps S "Overweight" r then 1 else 0)
                 + (if keeps S "Obese" r then 1 else 0)
                 + (if keeps S "All" r && uncategorised r then 1 else 0))%nat).
    { unfold keeps, uncategorised.
      destruct (existsb (String.eqb (row_name r)) S);
        destruct (BMI_Category r) as [[]|]; reflexivity. }
    lia.
Qed.

(** X7: filters compose in any order, and choosing a category after
    looking at "All" is choosing it at once: filtering a view again gives
    the same rows whichever of the two filters comes first, and the category
    view is the "All" view filtered by the category. *)
Theorem filters_commute (table : DataFrame) (S1 S2 : list string) (C1 C2 : string) :
  apply_filters (apply_filters table S1 C1) S2 C2
    = apply_filters (apply_filters table S2 C2) S1 C1 /\
  apply_filters (apply_filters table S1 "All") S1 C1 = apply_filters table S1 C1.
Proof.
  rewrite !apply_filters_filter, !filter_twice. split.
  - apply filter_ext. intros r. apply andb_comm.
  - apply filter_ext. intros r. unfold keeps. simpl.
    destruct (existsb _ S1); simpl; reflexivity.
Qed.

Lemma filter_map_through {A B} (f : A -> B) (p : B -> bool) (l : list A) :
  map f (filter (fun x => p (f x)) l) = filter p (map f l).
Proof.
  induction l as [|x l IH]; simpl; [reflexivity|].
  destruct (p (f x)); simpl; rewrite IH; reflexivity.
Qed.

(** X8: where the names of the table are distinct, the "Total Students"
    count under "All" is the number of students selected: for a selection
    without repetition of names of the table, the view has exactly one row
    per selected name. *)
Theorem total_students_is_selection (table : DataFrame) (S : list string) :
  NoDup (student_names table) ->
  NoDup S ->
  incl S (student_names table) ->
  List.length (apply_filters table S "All") = List.length S /\
  Permutation (student_names (apply_filters table S "All")) S.
Proof.
  intros Nt Ns I.
  assert (P : Permutation (student_names (apply_filters table S "All")) S).
  { rewrite apply_filters_filter. unfold student_names.
    rewrite (filter_ext (keeps S "All")
               (fun r => existsb (fun y => String.eqb (row_name r) y) S)).
    2:{ intros r. unfold keeps. simpl. apply andb_true_r. }
    rewrite (filter_map_through row_name (fun n => existsb (String.eqb n) S)).
    apply NoDup_Permutation; [apply nodup_filter; exact Nt | exact Ns|].
    intros n. rewrite filter_In, isin_spec. split; [tauto|].
    intros H. split; [apply I; exact H | exact H]. }
  split; [|exact P].
  rewrite <- (Permutation_length P). unfold student_names.
  symmetry. apply length_map.
Qed.

Lemma total_students_is_selection_witness :
  NoDup (student_names (load_data sample_csv)) /\
  NoDup ["Mia"; "Zoe"]%string /\
  incl ["Mia"; "Zoe"]%string (student_names (load_data sample_csv)) /\
  List.length (apply_filters (load_data sample_csv) ["Mia"; "Zoe"]%string "All") = 2%nat.
Proof.
  assert (Nt : NoDup (student_names (load_data sample_csv))).
  { vm_compute. repeat constructor; simpl; intuition discriminate. }
  assert (Ns : NoDup ["Mia"; "Zoe"]%string).
  { repeat constructor; simpl; intuition discriminate. }
  assert (I : incl ["Mia"; "Zoe"]%string (student_names (load_data sample_csv))).
  { intros n H. vm_compute. simpl in H. intuition. }
  split; [exact Nt|]. split; [exact Ns|]. split; [exact I|].
  exact (proj1 (total_students_is_selection _ _ Nt Ns I)).
Defined.

(** ** The overview *)

(** X9: [int] cuts the largest squat count toward zero: the integer shown
    is less than 1 away from the count, not above a count that is not
    negative and not below one that is not positive. *)
Theorem py_int_truncates (q : Q) :
  exists k : Z,
    py_int (Fin q) = Returned k /\
    (0 <= q -> inject_Z k <= q /\ q < inject_Z k + 1)%Q /\
    (q <= 0 -> q <= inject_Z k /\ inject_Z k - 1 < q)%Q.
Proof.
  destruct q as [n d]. exists (Z.quot n (Zpos d)).
  split; [reflexivity|].
  unfold Qle, Qlt, Qminus, Qplus, Qopp, inject_Z. cbn [Qnum Qden].
  split; intros H.
  - assert (N : (0 <= n)%Z) by lia.
    rewrite Z.quot_div_nonneg by lia.
    pose proof (Z.mul_div_le n (Zpos d) ltac:(lia)).
    pose proof (Z.mul_succ_div_gt n (Zpos d) ltac:(lia)).
    rewrite ?Pos.mul_1_r. set (k := (n / Zpos d)%Z) in *. clearbody k.
    unfold Z.succ in *. split; nia.
  - assert (N : (n <= 0)%Z) by lia.
    pose proof (Z.quot_opp_l n (Zpos d) ltac:(lia)) as O.
    assert (E : Z.quot n (Zpos d) = (- ((- n) / Zpos d))%Z).
    { rewrite <- (Z.opp_involutive (Z.quot n (Zpos d))), <- O.
      rewrite Z.quot_div_nonneg by lia. reflexivity. }
    rewrite E.
    pose proof (Z.mul_div_le (- n) (Zpos d) ltac:(lia)).
    pose proof (Z.mul_succ_div_gt (- n) (Zpos d) ltac:(lia)).
    rewrite ?Pos.mul_1_r. set (k := (- n / Zpos d)%Z) in *. clearbody k.
    unfold Z.succ in *. split; nia.
Qed.

Lemma max_nan_iff (series : list float) :
  Series.max series = NaN <-> present series = [].
Proof.
  split; [|apply max_none].
  intros E. destruct (present series) as [|p ps] eqn:P; [reflexivity|].
  assert (N : present series <> []) by (rewrite P; discriminate).
  destruct (max_maximum series N) as [I _].
  rewrite E in I. apply filter_In in I. destruct I as [_ I]. discriminate.
Qed.

(** X10: how a run of the script ends, by the squat counts of the filtered
    view alone: with [ValueError] exactly when no row has a squat count,
    with [OverflowError] exactly when the largest squat count is infinite,
    and otherwise at its last line; it never ends with a [KeyError] or a
    [NameError], whatever the table and the choices in the sidebar. *)
Theorem script_ending (float_repr : Q -> string) (linesep : string)
    (csv : list Student) (S : list string) (C : string) :
  let squats :=
    getitem LB_Squat_1min_reps (Table (apply_filters (load_data csv) S C)) in
  let outcome := fst (run (script float_repr linesep csv S C)) in
  (outcome = Raised ValueError <-> present squats = []) /\
  (outcome = Raised OverflowError <-> exists s, Series.max squats = Inf s) /\
  ((exists l, outcome = Returned l) <-> exists q, Series.max squats = Fin q) /\
  outcome <> Raised KeyError /\
  outcome <> Raised NameError.
Proof.
  intros squats outcome.
  pose proof (script_outcome float_repr linesep csv S C) as O.
  cbv zeta in O. fold squats in O.
  rewrite <- (max_nan_iff squats).
  subst outcome.
  destruct (Series.max squats) as [|s|q]; cbn [py_int] in O; rewrite O; cbn [fst].
  - repeat split; try discriminate; try tauto.
    + intros [s E]. discriminate.
    + intros [l E]. discriminate.
    + intros [q E]. discriminate.
  - repeat split; try discriminate; try tauto.
    + intros _. exists s. reflexivity.
    + intros [l E]. discriminate.
    + intros [q E]. discriminate.
  - repeat split; try discriminate; try tauto.
    + intros [s E]. discriminate.
    + intros _. exists q. reflexivity.
    + intros _. eexists. reflexivity.
Qed.

(** X17: the largest squat count skips the missing cells.  [Series.max] is
    missing when no cell of the series is present; otherwise it is one of
    the present cells, and no present cell is above it.  Squat repetitions
    [5, missing, 8] have the maximum 8, which the overview of the sample
    table shows as the integer 8. *)
Theorem max_skips_missing :
  (forall series, present series = [] -> Series.max series = NaN) /\
  (forall series, present series <> [] ->
                  is_maximum (present series) (Series.max series)) /\
  py_int (Series.max [Fin 5; NaN; Fin 8]) = Returned 8%Z /\
  (getitem LB_Squat_1min_reps (Table (load_data sample_csv)) = [Fin 5; NaN; Fin 8] /\
   In (metric "Max Squat (reps)" (IntValue 8))
      (page (snd (run (script sample_repr posix_linesep sample_csv
                         ["Zoe"; "Adam"; "Mia"]%string "All"))))).
Proof.
  split; [exact max_none|].
  split; [exact max_maximum|].
  split; [reflexivity|].
  split; [reflexivity|].
  vm_compute. tauto.
Qed.

(** ** The strength tab *)

(** X11: a weight of zero raises nothing.  In the frame of the strength
    tab, the relative strength of a student with a weight of zero is an
    infinity when the upper-body strength is a number other than zero, and
    missing when it is zero; and it is missing whenever the weight or the
    strength is missing.  (The sign of the infinity is left open: float64
    has two zeros, and the sign is that of the strength for a weight of
    [0.0] and the opposite one for a weight of [-0.0].) *)
Theorem zero_weight_gives_infinity (view : DataFrame) (r : StrengthRow) :
  In r (sorted_frame view) ->
  (forall u w, UB_Strength_kg (student (row r)) = Fin u ->
               Weight_kg (student (row r)) = Fin w -> (w == 0)%Q ->
               (~ (u == 0)%Q -> exists negative, Rel_Strength_perKg r = Inf negative) /\
               ((u == 0)%Q -> Rel_Strength_perKg r = NaN)) /\
  (UB_Strength_kg (student (row r)) = NaN \/ Weight_kg (student (row r)) = NaN ->
   Rel_Strength_perKg r = NaN).
Proof.
  intros H. rewrite (sorted_frame_strength view r H). split.
  - intros u w -> -> W. unfold truediv.
    apply Qeq_bool_iff in W. rewrite W.
    split; intros U.
    + destruct (Qeq_bool u 0) eqn:E; [apply Qeq_bool_iff in E; contradiction|].
      eexists. reflexivity.
    + apply Qeq_bool_iff in U. rewrite U. reflexivity.
  - intros [-> | ->]; [reflexivity|].
    destruct (UB_Strength_kg (student (row r))); reflexivity.
Qed.

Lemma zero_weight_gives_infinity_witness :
  let heavy := mkStudent "Kai" (Fin 170) (Fin 0) (Fin 20) NaN (Fin 25) (Fin 7)
                 NaN NaN NaN NaN in
  let r := mkStrengthRow (mkRow heavy (Some Normal)) (Inf false) in
  In r (sorted_frame (load_data [heavy])) /\
  exists negative, Rel_Strength_perKg r = Inf negative.
Proof.
  intros heavy r.
  assert (I : In r (sorted_frame (load_data [heavy]))) by (vm_compute; tauto).
  split; [exact I|].
  refine (proj1 (proj1 (zero_weight_gives_infinity (load_data [heavy]) r I)
                   25 0 eq_refl eq_refl _) _); [reflexivity|].
  intros E. discriminate E.
Defined.

(** ** The order of the strength tab *)

Section NameOrder.

Lemma leb_lt_or_eq (a b : string) :
  String.leb a b = true <-> OrderedTypeEx.String_as_OT.lt a b \/ a = b.
Proof.
  unfold String.leb.
  pose proof (OrderedTypeEx.String_as_OT.cmp_lt a b) as L.
  pose proof (OrderedTypeEx.String_as_OT.cmp_eq a b) as E.
  change OrderedTypeEx.String_as_OT.cmp with String.compare in L, E.
  destruct (String.compare a b); split; intros H; try reflexivity; try discriminate.
  - right. apply E. reflexivity.
  - left. apply L. reflexivity.
  - destruct H as [H|H]; [apply L in H | apply E in H]; discriminate.
Qed.

Lemma leb_trans (a b c : string) :
  String.leb a b = true -> String.leb b c = true -> String.leb a c = true.
Proof.
  rewrite !leb_lt_or_eq. intros [H1| ->] [H2| ->]; auto.
  left. exact (OrderedTypeEx.String_as_OT.lt_trans _ _ _ H1 H2).
Qed.

Context {A : Type} (key : A -> string).

Let key_le (a b : A) : Prop := String.leb (key a) (key b) = true.

Lemma sorted_head_least (x : A) (l : list A) :
  Sorted key_le (x :: l) -> forall y, In y (x :: l) -> key_le x y.
Proof.
  intros S. apply Sorted_StronglySorted in S.
  - inversion S as [|? ? _ F]; subst. intros y [<-|H].
    + unfold key_le. destruct (String.leb_total (key x) (key x)); assumption.
    + rewrite Forall_forall in F. apply F. exact H.
  - intros a b c. unfold key_le. apply leb_trans.
Qed.

Lemma key_injective_on (l : list A) (x y : A) :
  NoDup (map key l) -> In x l -> In y l -> key x = key y -> x = y.
Proof.
  induction l as [|z l IH]; simpl; intros N Hx Hy E; [contradiction|].
  inversion N as [|? ? Nz Nl]; subst.
  destruct Hx as [<-|Hx], Hy as [<-|Hy]; try reflexivity.
  - exfalso. apply Nz. rewrite E. apply in_map. exact Hy.
  - exfalso. apply Nz. rewrite <- E. apply in_map. exact Hx.
  - apply IH; assumption.
Qed.

(** Two arrangements of the same rows, both in the order of their keys, are
    the same arrangement when no key occurs twice. *)
Lemma sorted_arrangement_unique (l1 l2 : list A) :
  NoDup (map key l1) -> Permutation l1 l2 ->
  Sorted key_le l1 -> Sorted key_le l2 -> l1 = l2.
Proof.
  revert l2. induction l1 as [|x l1 IH]; intros l2 N P S1 S2.
  - apply Permutation_nil in P. symmetry. exact P.
  - destruct l2 as [|y l2]; [apply Permutation_sym, Permutation_nil in P; discriminate|].
    assert (Ix : In x (y :: l2)) by (apply (Permutation_in _ P); left; reflexivity).
    assert (Iy : In y (x :: l1))
      by (apply (Permutation_in _ (Permutation_sym P)); left; reflexivity).
    pose proof (sorted_head_least x l1 S1 y Iy) as L1.
    pose proof (sorted_head_least y l2 S2 x Ix) as L2.
    assert (E : x = y).
    { apply (key_injective_on (x :: l1)); [exact N | left; reflexivity | exact Iy|].
      apply String.leb_antisym; assumption. }
    subst y. f_equal.
    apply IH.
    + inversion N; assumption.
    + exact (Permutation_cons_inv P).
    + inversion S1; assumption.
    + inversion S2; assumption.
Qed.

End NameOrder.

(** X12: [sort_values('Name')] leaves no choice where the names are
    distinct: any arrangement of the rows of a frame that is in ascending
    order of the names is the frame [sort_values] returns, so that the result
    does not depend on the sorting algorithm; in particular sorting a sorted
    frame changes nothing. *)
Theorem sort_values_determined {A} (key : A -> string) (df arranged : list A) :
  NoDup (map key df) ->
  Permutation arranged df ->
  Sorted (fun a b => String.leb (key a) (key b) = true) arranged ->
  arranged = sort_values key df /\
  sort_values key (sort_values key df) = sort_values key df.
Proof.
  intros N P S.
  assert (U : forall l, Permutation l df ->
                        Sorted (fun a b => String.leb (key a) (key b) = true) l ->
                        l = sort_values key df).
  { intros l Pl Sl. apply (sorted_arrangement_unique key).
    - apply (Permutation_NoDup (l := map key df)); [|exact N].
      apply Permutation_map, Permutation_sym, Pl.
    - eapply perm_trans; [exact Pl | apply Permutation_sym, sort_values_perm].
    - exact Sl.
    - apply sort_values_sorted. }
  split; [apply U; assumption|].
  apply U.
  - eapply perm_trans; apply sort_values_perm.
  - apply sort_values_sorted.
Qed.

Lemma sort_values_determined_witness :
  NoDup (map row_name (load_data sample_csv)) /\
  sort_values row_name (sort_values row_name (load_data sample_csv))
    = sort_values row_name (load_data sample_csv).
Proof.
  assert (N : NoDup (map row_name (load_data sample_csv))).
  { vm_compute. repeat constructor; simpl; intuition discriminate. }
  split; [exact N|].
  exact (proj2 (sort_values_determined row_name (load_data sample_csv)
                  (sort_values row_name (load_data sample_csv)) N
                  (sort_values_perm row_name _) (sort_values_sorted row_name _))).
Defined.

Lemma sorted_map_names (frame : list StrengthRow) :
  Sorted name_le frame ->
  Sorted (fun a b => String.leb a b = true) (map (fun r => row_name (row r)) frame).
Proof.
  induction 1 as [|r frame S IH H]; simpl; constructor; [exact IH|].
  destruct H as [|r' frame' L]; simpl; constructor. exact L.
Qed.

(** X13: the strength tab lists every student of the view once, in one
    order: its three bar charts and its table of details all carry the same
    list of names, which is the names of the view in ascending order, with
    one value per name in each chart and one table row per name. *)
Theorem strength_tab_one_order (h : list object) (p : list element) (v : loc)
    (view : DataFrame) :
  nth_error h v = Some (Table view) ->
  exists names flexibility absolute relative body,
    page (snd (tab2 v (mkState h p))) =
      p ++ [plotly_chart (bar "Flexibility (cm)" names flexibility);
            plotly_chart (bar "Absolute Upper Body Strength (kg)" names absolute);
            plotly_chart (bar "Relative Strength (UB Strength / BMI)" names relative);
            dataframe display_cols body] /\
    Permutation names (student_names view) /\
    Sorted (fun a b => String.leb a b = true) names /\
    List.length flexibility = List.length names /\
    List.length absolute = List.length names /\
    List.length relative = List.length names /\
    map (hd (Text "")) body = map Text names.
Proof.
  intros H. rewrite (tab2_run h p v view H). cbn [snd page].
  exists (map (fun r => row_name (row r)) (sorted_frame view)),
         (getitem Flexibility_cm (StrengthTable (sorted_frame view))),
         (getitem UB_Strength_kg (StrengthTable (sorted_frame view))),
         (map Rel_Strength_perKg (sorted_frame view)),
         (map display_cells (sorted_frame view)).
  split.
  { unfold strength_page, fig_flex, fig_abs, getitem, object_rows.
    rewrite !map_map. reflexivity. }
  split.
  { unfold student_names. rewrite <- (map_map row row_name).
    apply Permutation_map, sorted_frame_rows. }
  split; [apply sorted_map_names, sorted_frame_sorted|].
  unfold getitem, object_rows. rewrite !map_map, !length_map.
  repeat split; rewrite ?map_map; reflexivity.
Qed.

Lemma strength_tab_one_order_witness :
  nth_error [Table (load_data sample_csv)] 0%nat = Some (Table (load_data sample_csv)) /\
  exists names flexibility absolute relative body,
    page (snd (tab2 0%nat (mkState [Table (load_data sample_csv)] []))) =
      [] ++ [plotly_chart (bar "Flexibility (cm)" names flexibility);
             plotly_chart (bar "Absolute Upper Body Strength (kg)" names absolute);
             plotly_chart (bar "Relative Strength (UB Strength / BMI)" names relative);
             dataframe display_cols body] /\
    Permutation names (student_names (load_data sample_csv)) /\
    Sorted (fun a b => String.leb a b = true) names /\
    List.length flexibility = List.length names /\
    List.length absolute = List.length names /\
    List.length relative = List.length names /\
    map (hd (Text "")) body = map Text names.
Proof.
  split; [reflexivity|].
  exact (strength_tab_one_order [Table (load_data sample_csv)] [] 0%nat
           (load_data sample_csv) eq_refl).
Defined.

(** ** The exporter *)

(** X14: the export loses nothing of what it writes: two frames, of either
    shape, whose exports are the same bytes have the same header and the
    same text in every field of every row, whatever commas, quotes or line
    breaks the names hold.  The line terminator is any that is not empty and
    holds neither the delimiter nor the quote character. *)
Theorem convert_df_to_csv_injective (float_repr : Q -> string) (linesep : string)
    {R1 R2 : Type} `{Tabular R1} `{Tabular R2} (df1 : list R1) (df2 : list R2) :
  good_linesep linesep = true ->
  convert_df_to_csv float_repr linesep df1 = convert_df_to_csv float_repr linesep df2 ->
  csv_rows float_repr df1 = csv_rows float_repr df2.
Proof.
  intros G E. unfold convert_df_to_csv, encode_utf8 in E.
  apply (f_equal string_of_list_byte) in E.
  rewrite !string_of_list_byte_of_string in E. unfold to_csv in E.
  apply (f_equal (tokenize linesep AtField EmptyString [] [])) in E.
  rewrite !(written_rows_read linesep G) in E.
  cbn [rev app] in E.
  exact (f_equal (fun o => match o with Some rows => rows | None => [] end) E).
Qed.

Lemma convert_df_to_csv_injective_witness :
  good_linesep posix_linesep = true /\
  csv_rows sample_repr (load_data sample_csv) = csv_rows sample_repr (load_data sample_csv).
Proof.
  split; [reflexivity|].
  exact (convert_df_to_csv_injective sample_repr posix_linesep
           (load_data sample_csv) (load_data sample_csv) eq_refl eq_refl).
Defined.

(** ** The data explorer *)

(** X15: the download is the table the data explorer shows: tab 4 puts on
    the page a table and a download whose bytes are the text of that table's
    header followed by the texts of that table's rows; every row of the table
    has a cell for every column. *)
Theorem download_is_table_shown (float_repr : Q -> string) (linesep : string)
    (h : list object) (p : list element) (l : loc) (frame : object) :
  nth_error h l = Some frame ->
  exists header body data,
    page (snd (tab4 float_repr linesep l (mkState h p))) =
      p ++ [dataframe header body;
            download_button data "movement_lab_filtered_data.csv" "text/csv"] /\
    data = encode_utf8
             (fold_right (fun fields out => writerow linesep fields ++ out)%string
                EmptyString
                (header :: map (map (cell_text float_repr)) body)) /\
    Forall (fun cells_of_row => List.length cells_of_row = List.length header) body.
Proof.
  intros H. rewrite (tab4_run float_repr linesep h p l frame H). cbn [snd page].
  exists (object_columns frame), (object_cells frame), (convert float_repr linesep frame).
  split; [reflexivity|].
  destruct frame as [df|df]; cbn [convert object_columns object_cells].
  - split.
    + unfold convert_df_to_csv, to_csv, csv_rows. rewrite map_map. reflexivity.
    + apply Forall_forall. intros cs I. apply in_map_iff in I.
      destruct I as [r [<- _]]. reflexivity.
  - split.
    + unfold convert_df_to_csv, to_csv, csv_rows. rewrite map_map. reflexivity.
    + apply Forall_forall. intros cs I. apply in_map_iff in I.
      destruct I as [r [<- _]]. reflexivity.
Qed.

Lemma download_is_table_shown_witness :
  nth_error [Table (load_data sample_csv)] 0%nat = Some (Table (load_data sample_csv)) /\
  exists header body data,
    page (snd (tab4 sample_repr posix_linesep 0%nat
                 (mkState [Table (load_data sample_csv)] []))) =
      [] ++ [dataframe header body;
             download_button data "movement_lab_filtered_data.csv" "text/csv"] /\
    data = encode_utf8
             (fold_right (fun fields out => writerow posix_linesep fields ++ out)%string
                EmptyString
                (header :: map (map (cell_text sample_repr)) body)) /\
    Forall (fun cells_of_row => List.length cells_of_row = List.length header) body.
Proof.
  split; [reflexivity|].
  exact (download_is_table_shown sample_repr posix_linesep
           [Table (load_data sample_csv)] [] 0%nat (Table (load_data sample_csv)) eq_refl).
Defined.

(** ** The stages together *)

(** X16: whenever the script reaches its last line, all its stages show the
    same number of students, the number of rows of the filtered view: the
    "Total Students" metric, the number of bars of each strength chart, the
    number of rows of the table of details, the number of point pairs of the
    throw chart, the number of rows of the data explorer and the number of
    records of the export. *)
Theorem stages_show_same_count (float_repr : Q -> string) (linesep : string)
    (csv : list Student) (S : list string) (C : string) (reps : Z) :
  let view := apply_filters (load_data csv) S C in
  let n := List.length view in
  let shown := page (snd (run (script float_repr linesep csv S C))) in
  py_int (Series.max (getitem LB_Squat_1min_reps (Table view))) = Returned reps ->
  In (metric "Total Students" (IntValue (Z.of_nat n))) shown /\
  (forall title x y, In (plotly_chart (bar title x y)) shown ->
                     List.length x = n /\ List.length y = n) /\
  (forall best mean names height,
      In (plotly_chart (scatter_pair best mean names height)) shown ->
      List.length best = n /\ List.length mean = n /\ List.length names = n) /\
  (forall header body, In (dataframe header body) shown -> List.length body = n) /\
  (forall data file_name mime,
      In (download_button data file_name mime) shown ->
      data = convert_df_to_csv float_repr linesep (sorted_frame view) /\
      List.length (csv_rows float_repr (sorted_frame view)) = Datatypes.S n).
Proof.
  intros view n shown R.
  pose proof (script_outcome float_repr linesep csv S C) as O.
  cbv zeta in O. fold view in O. rewrite R in O.
  assert (L : List.length (sorted_frame view) = n) by apply sorted_frame_length.
  assert (E : shown =
              overview_head (Table view) ++ overview_tail (Table view) reps
                ++ strength_page (sorted_frame view)
                ++ throw_page (StrengthTable (sorted_frame view))
                ++ explorer_page float_repr linesep (StrengthTable (sorted_frame view))).
  { unfold shown. rewrite O. reflexivity. }
  rewrite E. clear E O shown.
  unfold overview_head, overview_tail, strength_page, throw_page, explorer_page,
    fig_bmi, fig_flex, fig_abs, fig_mb, fig_trials.
  cbn [app In].
  repeat split;
    try (left; reflexivity);
    intros;
    repeat match goal with
      | H : _ \/ _ |- _ => destruct H
      | H : False |- _ => contradiction
      | H : @eq element _ _ |- _ => inversion H; subst; clear H
      end;
    unfold getitem, object_rows, object_cells, len;
    rewrite ?csv_rows_length, ?length_map; try exact L; try reflexivity;
    rewrite L; reflexivity.
Qed.

Lemma stages_show_same_count_witness :
  py_int (Series.max (getitem LB_Squat_1min_reps
            (Table (apply_filters (load_data sample_csv) sample_names "All"))))
    = Returned 8%Z /\
  In (metric "Total Students" (IntValue 3))
     (page (snd (run (script sample_repr posix_linesep sample_csv sample_names "All")))).
Proof.
  split; [reflexivity|].
  exact (proj1 (stages_show_same_count sample_repr posix_linesep sample_csv
                  sample_names "All" 8%Z eq_refl)).
Defined.
